(** * Balanzia: the upload pipeline of [backend/server.js]

    A shallow embedding of the file-upload handler ([app.post('/api/upload')]),
    of [createTransactionHash] and of the status derivation of
    [app.patch('/api/transactions/:id')], together with the JavaScript
    built-ins these run on ([||], [parseFloat], [isNaN], [new Date(..)],
    [toISOString], [JSON.stringify], [btoa]); then of the login and
    cost-center handlers of the server and of the handlers of the page that
    call them.

    Conventions of the model.
    - A JavaScript text none of whose code units is above 0xFF is a [string],
      one character per code unit; a text with a code unit above 0xFF (a euro
      sign, say) is kept apart ([JWide]), since [btoa] throws on it.  The
      texts of a row come from decoding the file as UTF-8, so they hold no
      unpaired surrogate.
    - A JavaScript number is an IEEE double, written as the decimal that
      Number::toString prints for it ([JSNumber]): the one with the fewest
      digits that reads back as the same double.  [parseFloat] rounds what
      it reads to the nearest double, and gives [Infinity] past the largest.
    - A parsed row is what [Papa.parse] hands over with [header: true] and
      [dynamicTyping: true]: an object from column names to [null], booleans,
      numbers and strings (a cell holding a full ISO timestamp, which Papa
      turns into a [Date] object, is outside the model). *)

From Stdlib Require Import ZArith NArith List Bool Lia.
From Stdlib Require Import Strings.String Strings.Ascii Numbers.DecimalString.
Import ListNotations.

Open Scope string_scope.
Open Scope Z_scope.

(* ================================================================== *)
(** ** JavaScript values *)

Module JS.

(** A number: [Finite neg m e] is the double that [(-1)^neg * m * 10^e]
    reads as.  The canonical form has [m] not divisible by ten and as short
    as that double allows, and [e = 0] when [m = 0]. *)
Inductive JSNumber : Type :=
| NaN
| Infinity (neg : bool)
| Finite (neg : bool) (m : N) (e : Z).

Inductive JSValue : Type :=
| JUndefined
| JNull
| JBool (b : bool)
| JNum (n : JSNumber)
| JStr (s : string)
| JWide (before : string) (over : positive) (after : list N).

(** A text is a [JStr] when all its code units are at most 0xFF.  Any other
    text is a [JWide]: the code units before its first one above 0xFF, that
    code unit as [0xFF + over], and the code units after it. *)

(** An object, as an ordered list of own properties. *)
Definition JSObject : Type := list (string * JSValue).

(** [o.k]: the value of property [k], [undefined] when [o] has none. *)
Fixpoint get (o : JSObject) (k : string) : JSValue :=
  match o with
  | [] => JUndefined
  | (k', v) :: o' => if String.eqb k' k then v else get o' k
  end.

Definition isNaN (n : JSNumber) : bool :=
  match n with NaN => true | _ => false end.

(** ToBoolean. *)
Definition truthy (v : JSValue) : bool :=
  match v with
  | JUndefined | JNull => false
  | JBool b => b
  | JNum NaN => false
  | JNum (Infinity _) => true
  | JNum (Finite _ m _) => negb (N.eqb m 0)
  | JStr s => negb (String.eqb s "")
  | JWide _ _ _ => true
  end.

Definition isWide (v : JSValue) : bool :=
  match v with JWide _ _ _ => true | _ => false end.

(** [a || b]. *)
Definition or_else (a b : JSValue) : JSValue := if truthy a then a else b.

(* ------------------------------------------------------------------ *)
(** *** Characters and digits *)

Definition code (c : ascii) : N := N_of_ascii c.

Definition isDigit (c : ascii) : bool := (48 <=? code c)%N && (code c <=? 57)%N.

Definition digitValue (c : ascii) : N := (code c - 48)%N.

(** StrWhiteSpaceChar, restricted to code units below 0x100. *)
Definition isWhiteSpace (c : ascii) : bool :=
  ((9 <=? code c)%N && (code c <=? 13)%N) || (code c =? 32)%N || (code c =? 160)%N.

Fixpoint trimStart (s : string) : string :=
  match s with
  | String c r => if isWhiteSpace c then trimStart r else s
  | EmptyString => EmptyString
  end.

(** StrWhiteSpaceChar among all code units: the ones above, U+1680, U+2000
    to U+200A, U+2028, U+2029, U+202F, U+205F, U+3000 and U+FEFF. *)
Definition isWhiteSpaceUnit (u : N) : bool :=
  (((9 <=? u) && (u <=? 13)) || (u =? 32) || (u =? 160) || (u =? 5760)
   || ((8192 <=? u) && (u <=? 8202)) || (u =? 8232) || (u =? 8233)
   || (u =? 8239) || (u =? 8287) || (u =? 12288) || (u =? 65279))%N.

Fixpoint trimStartUnits (w : list N) : list N :=
  match w with
  | u :: w' => if isWhiteSpaceUnit u then trimStartUnits w' else w
  | [] => []
  end.

(** The code units up to the first one above 0xFF, as a text. *)
Fixpoint narrowPrefix (w : list N) : string :=
  match w with
  | u :: w' => if (u <? 256)%N then String (ascii_of_N u) (narrowPrefix w') else EmptyString
  | [] => EmptyString
  end.

(** The code units of a text. *)
Fixpoint unitsOf (s : string) : list N :=
  match s with
  | String c r => code c :: unitsOf r
  | EmptyString => []
  end.

Definition wideUnits (before : string) (over : positive) (after : list N) : list N :=
  unitsOf before ++ (255 + Npos over)%N :: after.

(** The longest prefix of decimal digits, and what follows it. *)
Fixpoint spanDigits (s : string) : string * string :=
  match s with
  | String c r =>
      if isDigit c
      then let (d, r') := spanDigits r in (String c d, r')
      else (EmptyString, s)
  | EmptyString => (EmptyString, EmptyString)
  end.

Fixpoint digitsValueFrom (acc : N) (s : string) : N :=
  match s with
  | String c r => digitsValueFrom (10 * acc + digitValue c)%N r
  | EmptyString => acc
  end.

Definition digitsValue (s : string) : N := digitsValueFrom 0 s.

Definition decimalOfN (n : N) : string := NilZero.string_of_uint (N.to_uint n).

Fixpoint zeros (n : nat) : string :=
  match n with O => EmptyString | S k => String "0" (zeros k) end.

Fixpoint takeStr (n : nat) (s : string) : string :=
  match n, s with
  | S k, String c r => String c (takeStr k r)
  | _, _ => EmptyString
  end.

Fixpoint dropStr (n : nat) (s : string) : string :=
  match n, s with
  | S k, String _ r => dropStr k r
  | _, _ => s
  end.

(** [s.startsWith(p)]. *)
Fixpoint startsWith (p s : string) : bool :=
  match p, s with
  | EmptyString, _ => true
  | String a p', String b s' => Ascii.eqb a b && startsWith p' s'
  | String _ _, EmptyString => false
  end.

(* ------------------------------------------------------------------ *)
(** *** Numbers: canonical form, Number::toString, parseFloat *)

(** Drops the trailing zeros of a mantissa into the exponent. *)
Fixpoint stripZeros (fuel : nat) (m : N) (e : Z) : N * Z :=
  match fuel with
  | O => (m, e)
  | S f =>
      if (negb (m =? 0) && (m mod 10 =? 0))%N
      then stripZeros f (m / 10)%N (e + 1)
      else (m, e)
  end.

(** The canonical form of the decimal [m * 10^e]. *)
Definition canonical (neg : bool) (m : N) (e : Z) : JSNumber :=
  if (m =? 0)%N then Finite neg 0 0
  else let (m', e') := stripZeros (S (N.to_nat (N.log2 m))) m e in Finite neg m' e'.

(* ------------------------------------------------------------------ *)
(** *** Rounding to a double *)

(** A positive double, as [mant * 2^ex] with [mant] below 2^53 or equal to
    it and [ex] at least -1074; zero; or what lies beyond the largest
    double. *)
Inductive Binary64 : Type :=
| bZero
| bFinite (mant ex : Z)
| bInfinity.

(** Whether [a / b] is at least [2^k], and whether it is at least [10^k],
    for positive [a] and [b]. *)
Definition geTwoPow (a b k : Z) : bool :=
  if 0 <=? k then b * 2 ^ k <=? a else b <=? a * 2 ^ (- k).

Definition geTenPow (a b k : Z) : bool :=
  if 0 <=? k then b * 10 ^ k <=? a else b <=? a * 10 ^ (- k).

(** [a / b] rounded to the nearest integer, a tie going to the even one. *)
Definition divRoundEven (a b : Z) : Z :=
  let q := a / b in
  let r := a mod b in
  if 2 * r <? b then q
  else if b <? 2 * r then q + 1
  else if Z.even q then q else q + 1.

(** The double nearest to the positive rational [a / b] (roundTiesToEven). *)
Definition nearestDouble (a b : Z) : Binary64 :=
  let p0 := Z.log2 a - Z.log2 b in
  let p := if geTwoPow a b p0 then p0 else p0 - 1 in
  let ex := Z.max (p - 52) (-1074) in
  let mant :=
    if 0 <=? ex then divRoundEven a (b * 2 ^ ex)
    else divRoundEven (a * 2 ^ (- ex)) b in
  if mant =? 0 then bZero
  else if geTwoPow mant 1 (1024 - ex) then bInfinity
  else bFinite mant ex.

(** The double nearest to the decimal [s * 10^q], [s] positive. *)
Definition decimalToDouble (s q : Z) : Binary64 :=
  if 0 <=? q then nearestDouble (s * 10 ^ q) 1 else nearestDouble s (10 ^ (- q)).

Definition sameDouble (x y : Binary64) : bool :=
  match x, y with
  | bZero, bZero => true
  | bInfinity, bInfinity => true
  | bFinite m1 e1, bFinite m2 e2 =>
      let k := Z.min e1 e2 in
      m1 * 2 ^ (e1 - k) =? m2 * 2 ^ (e2 - k)
  | _, _ => false
  end.

(** The largest [n] from [start] downwards with [10^n <= a / b]. *)
Fixpoint floorLog10 (fuel : nat) (a b start : Z) : Z :=
  match fuel with
  | O => start
  | S f => if geTenPow a b start then start else floorLog10 f a b (start - 1)
  end.

(** The digits of Number::toString for the double [x = a / b], where
    [10^n10 <= a / b < 10^(n10 + 1)]: the decimal [s * 10^q] with the fewest
    digits [k] that reads back as [x], the nearest to [x] if there are two,
    the even one if they are as near. *)
Fixpoint shortestDecimal (fuel : nat) (k : Z) (a b n10 : Z) (x : Binary64) : Z * Z :=
  let q := n10 + 1 - k in
  let a' := if 0 <=? q then a else a * 10 ^ (- q) in
  let b' := if 0 <=? q then b * 10 ^ q else b in
  let lo := a' / b' in
  let r := a' mod b' in
  match fuel with
  | O => (lo, q)
  | S f =>
      let hi := lo + 1 in
      let okLo := (0 <? lo) && sameDouble (decimalToDouble lo q) x in
      let okHi := sameDouble (decimalToDouble hi q) x in
      if okLo && okHi then
        ((if 2 * r <? b' then lo
          else if b' <? 2 * r then hi
          else if Z.even lo then lo else hi), q)
      else if okLo then (lo, q)
      else if okHi then (hi, q)
      else shortestDecimal f (k + 1) a b n10 x
  end.

(** The number of a decimal literal [m * 10^e]: the double nearest to it, as
    the decimal that Number::toString prints for that double.  A literal
    beyond every double gives [Infinity], one below half the smallest gives
    zero; its length alone tells when it is 10^310 or more, or below
    10^-330. *)
Definition mkFinite (neg : bool) (m : N) (e : Z) : JSNumber :=
  if (m =? 0)%N then Finite neg 0 0
  else
    let d := Z.of_nat (String.length (decimalOfN m)) in
    if 310 <? d + e then Infinity neg
    else if d + e <? -330 then Finite neg 0 0
    else
      match decimalToDouble (Z.of_N m) e with
      | bZero => Finite neg 0 0
      | bInfinity => Infinity neg
      | bFinite mant ex =>
          let a := if 0 <=? ex then mant * 2 ^ ex else mant in
          let b := if 0 <=? ex then 1 else 2 ^ (- ex) in
          let n10 := floorLog10 4 a b (d + e) in
          let (s, q) := shortestDecimal 17 1 a b n10 (bFinite mant ex) in
          canonical neg (Z.to_N s) q
      end.

(** Number::toString with radix 10 (ECMA-262 6.1.6.1.20). *)
Definition numberToString (x : JSNumber) : string :=
  match x with
  | NaN => "NaN"
  | Infinity neg => if neg then "-Infinity" else "Infinity"
  | Finite neg m e =>
      if (m =? 0)%N then "0"
      else
        let digits := decimalOfN m in
        let k := Z.of_nat (String.length digits) in
        let n := k + e in
        let sign := if neg then "-" else "" in
        sign ++
        (if (k <=? n) && (n <=? 21) then
           digits ++ zeros (Z.to_nat (n - k))
         else if (0 <? n) && (n <=? 21) then
           takeStr (Z.to_nat n) digits ++ "." ++ dropStr (Z.to_nat n) digits
         else if (-6 <? n) && (n <=? 0) then
           "0." ++ zeros (Z.to_nat (- n)) ++ digits
         else
           let ex := (if n - 1 <? 0 then "-" else "+")
                       ++ decimalOfN (Z.to_N (Z.abs (n - 1))) in
           if k =? 1 then digits ++ "e" ++ ex
           else takeStr 1 digits ++ "." ++ dropStr 1 digits ++ "e" ++ ex)
  end.

(** The exponent part of a StrDecimalLiteral at the head of [s], 0 when
    there is none (an [e] that no digit follows is not part of the literal). *)
Definition exponentPart (s : string) : Z :=
  match s with
  | String c r =>
      if (Ascii.eqb c "e" || Ascii.eqb c "E")%bool then
        match r with
        | String sg r' =>
            if Ascii.eqb sg "-" then
              let (d, _) := spanDigits r' in
              if String.eqb d "" then 0 else - Z.of_N (digitsValue d)
            else if Ascii.eqb sg "+" then
              let (d, _) := spanDigits r' in
              if String.eqb d "" then 0 else Z.of_N (digitsValue d)
            else
              let (d, _) := spanDigits r in
              if String.eqb d "" then 0 else Z.of_N (digitsValue d)
        | EmptyString => 0
        end
      else 0
  | EmptyString => 0
  end.

(** The unsigned part of [parseFloat]: [Infinity], or the longest prefix that
    is a decimal literal; [NaN] when there is neither. *)
Definition parseUnsigned (neg : bool) (s : string) : JSNumber :=
  if startsWith "Infinity" s then Infinity neg
  else
    let (ip, r1) := spanDigits s in
    let (fp, r2) :=
      match r1 with
      | String c r =>
          if Ascii.eqb c "." then spanDigits r else (EmptyString, r1)
      | EmptyString => (EmptyString, r1)
      end in
    if String.eqb (ip ++ fp) "" then NaN
    else mkFinite neg (digitsValue (ip ++ fp))
                  (exponentPart r2 - Z.of_nat (String.length fp)).

(** [parseFloat] on a string (ECMA-262 19.2.4). *)
Definition parseFloatString (s : string) : JSNumber :=
  match trimStart s with
  | String c r =>
      if Ascii.eqb c "-" then parseUnsigned true r
      else if Ascii.eqb c "+" then parseUnsigned false r
      else parseUnsigned false (String c r)
  | EmptyString => NaN
  end.

(** [parseFloat] on a text with a code unit above 0xFF: that code unit is
    white space to skip or it ends what is read, since no number has it. *)
Definition parseFloatWide (before : string) (over : positive) (after : list N) : JSNumber :=
  match trimStart before with
  | EmptyString =>
      if isWhiteSpaceUnit (255 + Npos over)
      then parseFloatString (narrowPrefix (trimStartUnits after))
      else NaN
  | String c r => parseFloatString (String c r)
  end.

(** [parseFloat(v)]: the argument goes through ToString first. *)
Definition parseFloat (v : JSValue) : JSNumber :=
  match v with
  | JUndefined => parseFloatString "undefined"
  | JNull => parseFloatString "null"
  | JBool b => parseFloatString (if b then "true" else "false")
  | JNum n => parseFloatString (numberToString n)
  | JStr s => parseFloatString s
  | JWide before over after => parseFloatWide before over after
  end.

(* ------------------------------------------------------------------ *)
(** *** Exceptions *)

Inductive JSError : Type :=
| RangeError (message : string)
| TypeError (message : string)
| InvalidCharacterError (message : string)
| Error (message : string).

Definition errorMessage (e : JSError) : string :=
  match e with RangeError m | TypeError m | InvalidCharacterError m | Error m => m end.

(* ------------------------------------------------------------------ *)
(** *** Dates *)

(** The server runs on Node.  Where ECMA-262 leaves [Date.parse] to the
    implementation, V8 is followed: the date-only ISO form is UTC, the slash
    form is local time, and in both a day up to 31 is accepted in any month
    and runs over into the next one. *)

(** What the host contributes to [Date.parse]: LocalTZA, the offset of local
    time from UTC in milliseconds (positive east of Greenwich) at a given
    local time, which varies where clocks are changed; and the answer of the
    implementation-defined fallback for a text in neither of the two forms
    modelled below (a time value in milliseconds, or [None] for NaN); a text
    with a code unit above 0xFF is in neither form, and is handed over as
    its code units. *)
Record Host : Type := {
  localTZA : Z -> Z;
  fallbackParse : string -> option Z;
  fallbackParseWide : list N -> option Z
}.

Definition msPerDay : Z := 86400000.

(** MakeDay: the day number of a proleptic Gregorian date, day 0 being
    1970-01-01; linear in [d], so that a day past the end of its month runs
    into the next one. *)
Definition daysFromCivil (y m d : Z) : Z :=
  let y' := if m <=? 2 then y - 1 else y in
  let era := y' / 400 in
  let yoe := y' - era * 400 in
  let doy := (153 * (if 2 <? m then m - 3 else m + 9) + 2) / 5 + d - 1 in
  let doe := yoe * 365 + yoe / 4 - yoe / 100 + doy in
  era * 146097 + doe - 719468.

(** YearFromTime, MonthFromTime (1-based) and DateFromTime of a day number. *)
Definition civilFromDays (z : Z) : Z * Z * Z :=
  let z' := z + 719468 in
  let era := z' / 146097 in
  let doe := z' - era * 146097 in
  let yoe := (doe - doe / 1460 + doe / 36524 - doe / 146096) / 365 in
  let doy := doe - (365 * yoe + yoe / 4 - yoe / 100) in
  let mp := (5 * doy + 2) / 153 in
  let d := doy - (153 * mp + 2) / 5 + 1 in
  let m := if mp <? 10 then mp + 3 else mp - 9 in
  let y := yoe + era * 400 in
  ((if m <=? 2 then y + 1 else y), m, d).

Definition allDigits (s : string) : bool :=
  let (d, r) := spanDigits s in String.eqb r "" && negb (String.eqb d "").

Definition digitsZ (s : string) : Z := Z.of_N (digitsValue s).

(** The shape [YYYY-MM-DD] of the date-only ISO form. *)
Definition isIsoShaped (s : string) : bool :=
  (String.length s =? 10)%nat
  && allDigits (substring 0 4 s) && String.eqb (substring 4 1 s) "-"
  && allDigits (substring 5 2 s) && String.eqb (substring 7 1 s) "-"
  && allDigits (substring 8 2 s).

(** A text of that shape, read as UTC midnight. *)
Definition parseIsoDate (s : string) : option Z :=
  let y := digitsZ (substring 0 4 s) in
  let m := digitsZ (substring 5 2 s) in
  let d := digitsZ (substring 8 2 s) in
  if (1 <=? m) && (m <=? 12) && (1 <=? d) && (d <=? 31)
  then Some (daysFromCivil y m d * msPerDay)
  else None.

(** The shape [M/D/YYYY] of the legacy parser (one or two digits for month
    and day, four for the year): its three digit groups. *)
Definition slashParts (s : string) : option (string * string * string) :=
  let (ms, r1) := spanDigits s in
  match r1 with
  | String c1 r1' =>
      let (ds, r2) := spanDigits r1' in
      match r2 with
      | String c2 ys =>
          if Ascii.eqb c1 "/" && Ascii.eqb c2 "/"
             && (1 <=? String.length ms)%nat && (String.length ms <=? 2)%nat
             && (1 <=? String.length ds)%nat && (String.length ds <=? 2)%nat
             && (String.length ys =? 4)%nat && allDigits ys
          then Some (ms, ds, ys)
          else None
      | EmptyString => None
      end
  | EmptyString => None
  end.

(** The year the legacy parser makes of a number: one below 50 is a year of
    this century and one below 100 a year of the last, however many digits
    it is written with (0049 is 2049). *)
Definition legacyYear (y : Z) : Z :=
  if y <? 50 then y + 2000 else if y <? 100 then y + 1900 else y.

(** A text of that shape, read as local midnight. *)
Definition parseSlashDate (h : Host) (ms ds ys : string) : option Z :=
  let m := digitsZ ms in
  let d := digitsZ ds in
  if (1 <=? m) && (m <=? 12) && (1 <=? d) && (d <=? 31)
  then
    let local := daysFromCivil (legacyYear (digitsZ ys)) m d * msPerDay in
    Some (local - localTZA h local)
  else None.

(** [Date.parse]: [None] stands for NaN. *)
Definition Date_parse (h : Host) (s : string) : option Z :=
  if isIsoShaped s then parseIsoDate s
  else
    match slashParts s with
    | Some (ms, ds, ys) => parseSlashDate h ms ds ys
    | None => fallbackParse h s
    end.

(** Truncation of a finite number towards zero (ToIntegerOrInfinity). *)
Definition truncate (neg : bool) (m : N) (e : Z) : Z :=
  let a := if 0 <=? e then Z.of_N m * 10 ^ e else Z.of_N m / 10 ^ (- e) in
  if neg then - a else a.

(** TimeClip. *)
Definition timeClip (t : Z) : option Z :=
  if Z.abs t <=? 8640000000000000 then Some t else None.

(** [new Date(v)]: the time value of the new object, [None] for an invalid
    date.  A string goes through [Date.parse], anything else through ToNumber. *)
Definition newDate (h : Host) (v : JSValue) : option Z :=
  match v with
  | JStr s => match Date_parse h s with Some t => timeClip t | None => None end
  | JWide before over after =>
      match fallbackParseWide h (wideUnits before over after) with
      | Some t => timeClip t
      | None => None
      end
  | JUndefined => None
  | JNull => Some 0
  | JBool b => Some (if b then 1 else 0)
  | JNum NaN | JNum (Infinity _) => None
  | JNum (Finite neg m e) => timeClip (truncate neg m e)
  end.

Definition pad (width : nat) (n : Z) : string :=
  let s := decimalOfN (Z.to_N n) in
  zeros (width - String.length s) ++ s.

(** [Date.prototype.toISOString]: throws a RangeError on an invalid date. *)
Definition toISOString (d : option Z) : JSError + string :=
  match d with
  | None => inl (RangeError "Invalid time value")
  | Some t =>
      let day := t / msPerDay in
      let ms := t mod msPerDay in
      let '(y, m, dd) := civilFromDays day in
      let year :=
        if (0 <=? y) && (y <=? 9999) then pad 4 y
        else (if y <? 0 then "-" else "+") ++ pad 6 (Z.abs y) in
      inr (year ++ "-" ++ pad 2 m ++ "-" ++ pad 2 dd ++ "T"
           ++ pad 2 (ms / 3600000) ++ ":" ++ pad 2 (ms / 60000 mod 60) ++ ":"
           ++ pad 2 (ms / 1000 mod 60) ++ "." ++ pad 3 (ms mod 1000) ++ "Z")
  end.

(** [s.split(sep)[0]] for a one-character separator. *)
Fixpoint splitHead (sep : ascii) (s : string) : string :=
  match s with
  | String c r => if Ascii.eqb c sep then EmptyString else String c (splitHead sep r)
  | EmptyString => EmptyString
  end.

(* ------------------------------------------------------------------ *)
(** *** JSON.stringify and btoa *)

Definition dquote : string := String (ascii_of_N 34) EmptyString.
Definition backslash : string := String (ascii_of_N 92) EmptyString.

Definition hexDigit (n : N) : string :=
  String (ascii_of_N (if (n <? 10)%N then 48 + n else 87 + n)%N) EmptyString.

(** One code unit inside a JSON string (QuoteJSONString). *)
Definition quoteChar (c : ascii) : string :=
  let n := code c in
  if (n =? 34)%N then backslash ++ dquote
  else if (n =? 92)%N then backslash ++ backslash
  else if (n =? 8)%N then backslash ++ "b"
  else if (n =? 9)%N then backslash ++ "t"
  else if (n =? 10)%N then backslash ++ "n"
  else if (n =? 12)%N then backslash ++ "f"
  else if (n =? 13)%N then backslash ++ "r"
  else if (n <? 32)%N then backslash ++ "u00" ++ hexDigit (n / 16) ++ hexDigit (n mod 16)
  else String c EmptyString.

Fixpoint quoteChars (s : string) : string :=
  match s with
  | String c r => quoteChar c ++ quoteChars r
  | EmptyString => EmptyString
  end.

Definition quoteJSONString (s : string) : string := dquote ++ quoteChars s ++ dquote.

(** The serialization of a property value: nothing for [undefined] (the
    property is left out), or a text.  A text with a code unit above 0xFF is
    written as it is between its quotes; all that is kept of the outcome is
    that it has such a code unit. *)
Inductive Serialized : Type :=
| leftOut
| written (text : string)
| beyondLatin1.

Definition serializeValue (v : JSValue) : Serialized :=
  match v with
  | JUndefined => leftOut
  | JNull => written "null"
  | JBool b => written (if b then "true" else "false")
  | JNum (Finite neg m e) => written (numberToString (Finite neg m e))
  | JNum _ => written "null"
  | JStr s => written (quoteJSONString s)
  | JWide _ _ _ => beyondLatin1
  end.

(** The members of an object whose names have no code unit above 0xFF;
    [None] when one of the values has. *)
Fixpoint serializeMembers (o : JSObject) : option (list string) :=
  match o with
  | [] => Some []
  | (k, v) :: o' =>
      match serializeValue v, serializeMembers o' with
      | beyondLatin1, _ => None
      | _, None => None
      | leftOut, Some members => Some members
      | written s, Some members => Some ((quoteJSONString k ++ ":" ++ s) :: members)
      end
  end.

(** [JSON.stringify] of an object whose properties hold primitive values;
    [None] for a text with a code unit above 0xFF. *)
Definition JSON_stringify (o : JSObject) : option string :=
  match serializeMembers o with
  | Some members => Some ("{" ++ String.concat "," members ++ "}")
  | None => None
  end.

Definition base64Char (n : N) : string :=
  String (ascii_of_N
            (if (n <? 26)%N then 65 + n
             else if (n <? 52)%N then 71 + n
             else if (n <? 62)%N then n - 4
             else if (n =? 62)%N then 43 else 47)%N) EmptyString.

(** Base64 of code units that are all at most 0xFF. *)
Fixpoint base64 (s : string) : string :=
  match s with
  | EmptyString => EmptyString
  | String a EmptyString =>
      base64Char (code a / 4) ++ base64Char (code a mod 4 * 16) ++ "=="
  | String a (String b EmptyString) =>
      base64Char (code a / 4)
      ++ base64Char (code a mod 4 * 16 + code b / 16)
      ++ base64Char (code b mod 16 * 4) ++ "="
  | String a (String b (String c r)) =>
      base64Char (code a / 4)
      ++ base64Char (code a mod 4 * 16 + code b / 16)
      ++ base64Char (code b mod 16 * 4 + code c / 64)
      ++ base64Char (code c mod 64) ++ base64 r
  end.

(** [btoa(text)], [text] being [None] for a text with a code unit above
    0xFF: on such a text it throws an InvalidCharacterError. *)
Definition btoa (text : option string) : JSError + string :=
  match text with
  | Some s => inr (base64 s)
  | None => inl (InvalidCharacterError "Invalid character")
  end.

End JS.

(* ================================================================== *)
(** ** The server *)

Module Server.
Import JS.

(** One element of [parsed.data]. *)
Definition Row : Type := JSObject.

(** One element of [normalizedData]: the object literal of the [map]
    callback, property by property. *)
Record Transaction : Type := {
  date : string;
  merchant : JSValue;
  amount : JSNumber;
  account : JSValue;
  status : string;
  hash : string
}.


(** [createTransactionHash]: reads four properties of its argument; the
    exception of [btoa] leaves it. *)
Definition createTransactionHash (transaction : JSObject) : JSError + string :=
  btoa (JSON_stringify
          [("date", get transaction "date");
           ("merchant", get transaction "merchant");
           ("amount", get transaction "amount");
           ("account", get transaction "account")]).

(** [new Date(row.Date).toISOString().split('T')[0]]. *)
Definition isoDate (h : Host) (row : Row) : JSError + string :=
  match toISOString (newDate h (get row "Date")) with
  | inl e => inl e
  | inr s => inr (splitHead "T" s)
  end.

(** [row.Description || row.Merchant]. *)
Definition merchantOf (row : Row) : JSValue :=
  or_else (get row "Description") (get row "Merchant").

(** [parseFloat(row.Amount || row.Debit)]. *)
Definition amountOf (row : Row) : JSNumber :=
  parseFloat (or_else (get row "Amount") (get row "Debit")).

(** [row.Account || 'Default']. *)
Definition accountOf (row : Row) : JSValue :=
  or_else (get row "Account") (JStr "Default").

(** The argument of [createTransactionHash] in the [map] callback. *)
Definition hashInput (row : Row) : JSObject :=
  [("date", get row "Date");
   ("merchant", merchantOf row);
   ("amount", JNum (amountOf row));
   ("account", accountOf row)].

(** The callback of [parsed.data.map]: the properties of its object literal
    are evaluated in order, the date first and the hash last, and the
    exception of either leaves the callback. *)
Definition normalizeRow (h : Host) (row : Row) : JSError + Transaction :=
  match isoDate h row with
  | inl e => inl e
  | inr d =>
      match createTransactionHash (hashInput row) with
      | inl e => inl e
      | inr x =>
          inr {| date := d;
                 merchant := merchantOf row;
                 amount := amountOf row;
                 account := accountOf row;
                 status := "Review Required";
                 hash := x |}
      end
  end.

(** The hash of a row, for a row that has one (the empty text stands in when
    [createTransactionHash] throws). *)
Definition hashOf (row : Row) : string :=
  match createTransactionHash (hashInput row) with
  | inr x => x
  | inl _ => EmptyString
  end.

(** The record that the callback returns for a row when it returns one, [d]
    being the date of the row. *)
Definition recordOf (d : string) (row : Row) : Transaction :=
  {| date := d;
     merchant := merchantOf row;
     amount := amountOf row;
     account := accountOf row;
     status := "Review Required";
     hash := hashOf row |}.

(** [parsed.data.map(..)]: the first exception ends the traversal. *)
Fixpoint mapRows (h : Host) (rows : list Row) : JSError + list Transaction :=
  match rows with
  | [] => inr []
  | row :: rest =>
      match normalizeRow h row with
      | inl e => inl e
      | inr t =>
          match mapRows h rest with
          | inl e => inl e
          | inr ts => inr (t :: ts)
          end
      end
  end.

Definition hasAmount (t : Transaction) : bool := negb (isNaN (amount t)).

(** [normalizedData]. *)
Definition normalizedData (h : Host) (rows : list Row) : JSError + list Transaction :=
  match mapRows h rows with
  | inl e => inl e
  | inr ts => inr (filter hasAmount ts)
  end.

(** A cell that is absent from the row or empty. *)
Definition isMissing (v : JSValue) : bool :=
  match v with
  | JUndefined | JNull => true
  | JStr s => String.eqb s ""
  | _ => false
  end.

(** A cell that is absent, empty or the number zero. *)
Definition isMissingOrZero (v : JSValue) : bool :=
  match v with
  | JNum (Finite _ m _) => N.eqb m 0
  | _ => isMissing v
  end.

(** A cell with nothing but white space in it, if anything. *)
Definition isBlank (v : JSValue) : bool :=
  match v with
  | JUndefined | JNull => true
  | JStr s => String.eqb (trimStart s) ""
  | JWide before over after =>
      String.eqb (trimStart before) "" && isWhiteSpaceUnit (255 + Npos over)
      && match trimStartUnits after with [] => true | _ :: _ => false end
  | _ => false
  end.

(** The two spellings of a date in the specification's example, from the
    digits of the year, the month and the day. *)
Definition isDigits (n : nat) (s : string) : bool :=
  (String.length s =? n)%nat && allDigits s.

Definition isoText (y m d : string) : string := y ++ "-" ++ m ++ "-" ++ d.

Definition slashText (y m d : string) : string := m ++ "/" ++ d ++ "/" ++ y.

(* ------------------------------------------------------------------ *)
(** *** The storage client *)

(** The [transactions] table as the handler sees it, and how the next select
    and the next insert are going to answer. *)
Record Supabase : Type := {
  transactions : list Transaction;
  selectFails : bool;
  insertFails : bool
}.

Inductive Query : Type :=
| SelectHashIn (hashes : list string)
| Insert (records : list Transaction).

Definition member (x : string) (l : list string) : bool := existsb (String.eqb x) l.

(** [.from('transactions').select('hash').in('hash', hashes)]: the [hash]
    column of the rows whose hash is listed; [None] is [data: null]. *)
Definition selectHashIn (db : Supabase) (hashes : list string) : option (list string) :=
  if selectFails db then None
  else Some (filter (fun x => member x hashes) (map hash (transactions db))).

(** [newTransactions], with the exceptions raised on the way to it. *)
Definition newTransactions (h : Host) (db : Supabase) (rows : list Row)
  : JSError + list Transaction :=
  match normalizedData h rows with
  | inl e => inl e
  | inr nd =>
      match selectHashIn db (map hash nd) with
      | None => inl (TypeError "Cannot read properties of null (reading 'map')")
      | Some existingHashes =>
          inr (filter (fun t => negb (member (hash t) existingHashes)) nd)
      end
  end.

(** Whether the table holds a row with the hash of [t]. *)
Definition stored (db : Supabase) (t : Transaction) : bool :=
  member (hash t) (map hash (transactions db)).

(** Whether the table holds a row with the hash of [row]. *)
Definition storedRow (db : Supabase) (row : Row) : bool :=
  member (hashOf row) (map hash (transactions db)).

(* ------------------------------------------------------------------ *)
(** *** [POST /api/upload] *)

Inductive Response : Type :=
| send (code : nat) (text : string)
| json (code : nat) (message : string).

Record Outcome : Type := {
  response : Response;
  queries : list Query;
  database : Supabase
}.

Definition uploadFailed (e : JSError) : Response :=
  json 500 ("File upload failed: " ++ errorMessage e).

Definition uploadSucceeded (n : nat) : Response :=
  json 200 (decimalOfN (N.of_nat n)
            ++ " new transactions processed and saved successfully.").

Definition withRecords (db : Supabase) (records : list Transaction) : Supabase :=
  {| transactions := transactions db ++ records;
     selectFails := selectFails db;
     insertFails := insertFails db |}.

(** The handler; [file] is [None] when the request carries no file, and
    otherwise the rows Papa parsed from it. *)
Definition upload (h : Host) (db : Supabase) (file : option (list Row)) : Outcome :=
  match file with
  | None => {| response := send 400 "No file uploaded."; queries := []; database := db |}
  | Some rows =>
      match normalizedData h rows with
      | inl e => {| response := uploadFailed e; queries := []; database := db |}
      | inr nd =>
          let q := SelectHashIn (map hash nd) in
          match newTransactions h db rows with
          | inl e => {| response := uploadFailed e; queries := [q]; database := db |}
          | inr new =>
              if (0 <? List.length new)%nat then
                if insertFails db then
                  {| response := uploadFailed (Error "Database insertion failed.");
                     queries := [q; Insert new];
                     database := db |}
                else
                  {| response := uploadSucceeded (List.length new);
                     queries := [q; Insert new];
                     database := withRecords db new |}
              else
                {| response := uploadSucceeded (List.length new);
                   queries := [q];
                   database := db |}
          end
      end
  end.

(** The counts of the specification's ingestion result, read off the
    handler's variables: the length of [newTransactions], and the records of
    [normalizedData] that are not among them.  Neither exists when the
    handler fails before [newTransactions] is computed.  They say how the
    records were classified; the answer carries the first of them only when
    the insert, if there is one, goes through ([upload]). *)
Definition newCount (h : Host) (db : Supabase) (rows : list Row) : option nat :=
  match newTransactions h db rows with
  | inr new => Some (List.length new)
  | inl _ => None
  end.

Definition duplicateCount (h : Host) (db : Supabase) (rows : list Row) : option nat :=
  match normalizedData h rows, newTransactions h db rows with
  | inr nd, inr new => Some (List.length nd - List.length new)%nat
  | _, _ => None
  end.

(* ------------------------------------------------------------------ *)
(** *** [PATCH /api/transactions/:id] *)

(** [costCenter ? 'Processed' : 'Review Required']. *)
Definition patchStatus (costCenter : JSValue) : string :=
  if truthy costCenter then "Processed" else "Review Required".


End Server.

(* ================================================================== *)
(** ** Sample data *)

Module Sample.
Import JS Server.

(** A server on UTC whose fallback date parser recognises nothing. *)
Definition utc : Host :=
  {| localTZA := fun _ => 0; fallbackParse := fun _ => None;
     fallbackParseWide := fun _ => None |}.

(** The same server one hour east of Greenwich all year. *)
Definition cet : Host :=
  {| localTZA := fun _ => 3600000; fallbackParse := fun _ => None;
     fallbackParseWide := fun _ => None |}.

Definition emptyTable : Supabase :=
  {| transactions := []; selectFails := false; insertFails := false |}.

Definition failingInsert : Supabase :=
  {| transactions := []; selectFails := false; insertFails := true |}.

(** The two rows of the specification's example, as Papa delivers them
    (the cell [-4.50] arrives as the number -4.5). *)
Definition coffeeIso : Row :=
  [("Date", JStr "2024-01-05"); ("Description", JStr "Coffee Shop");
   ("Amount", JNum (Finite true 45 (-1))); ("Account", JStr "Checking")].

Definition coffeeSlash : Row :=
  [("Date", JStr "01/05/2024"); ("Description", JStr "Coffee Shop");
   ("Amount", JNum (Finite true 45 (-1))); ("Account", JStr "Checking")].

(** The cells of that transaction other than its date. *)
Definition coffeeCells : Row :=
  [("Description", JStr "Coffee Shop");
   ("Amount", JNum (Finite true 45 (-1))); ("Account", JStr "Checking")].

(** A row whose date cell is no date. *)
Definition badDate : Row :=
  [("Date", JStr "not a date"); ("Description", JStr "Bakery");
   ("Amount", JNum (Finite true 3 0)); ("Account", JStr "Checking")].

(** A row whose merchant cell is empty (Papa delivers [null]). *)
Definition blankMerchant : Row :=
  [("Date", JStr "2024-01-06"); ("Description", JNull);
   ("Amount", JNum (Finite true 12 0)); ("Account", JStr "Checking")].

(** A row whose merchant cell holds blanks only. *)
Definition spacesMerchant : Row :=
  [("Date", JStr "2024-01-06"); ("Description", JStr "   ");
   ("Amount", JNum (Finite true 12 0)); ("Account", JStr "Checking")].

(** A row with a thousands separator in its amount. *)
Definition thousands : Row :=
  [("Date", JStr "2024-01-07"); ("Description", JStr "Landlord");
   ("Amount", JStr "1,234.56"); ("Account", JStr "Checking")].

(** A row whose amount is no number. *)
Definition badAmount : Row :=
  [("Date", JStr "2024-01-08"); ("Description", JStr "Kiosk");
   ("Amount", JStr "n/a"); ("Account", JStr "Checking")].

(** A row without an Account column. *)
Definition noAccount : Row :=
  [("Date", JStr "2024-01-09"); ("Merchant", JStr "Grocer");
   ("Amount", JNum (Finite true 2075 (-2)))].

(** A row with a zero Amount and a Debit. *)
Definition zeroAmountWithDebit : Row :=
  [("Date", JStr "2024-01-10"); ("Description", JStr "Pharmacy");
   ("Amount", JNum (Finite false 0 0)); ("Debit", JNum (Finite false 1999 (-2)));
   ("Account", JStr "Checking")].

(** A row with a zero Amount and no Debit column. *)
Definition zeroAmount : Row :=
  [("Date", JStr "2024-01-11"); ("Description", JStr "Fee waiver");
   ("Amount", JNum (Finite false 0 0)); ("Account", JStr "Checking")].

(** Ten valid rows that differ in their amount. *)
Definition tenRows : list Row :=
  map (fun n : N =>
         [("Date", JStr "2024-02-01"); ("Description", JStr "Canteen");
          ("Amount", JNum (Finite true n 0)); ("Account", JStr "Checking")])
      [1; 2; 3; 4; 5; 6; 7; 8; 9; 11]%N.

(** Their records. *)
Definition tenRecords : list Transaction :=
  map (recordOf "2024-02-01") tenRows.

(** Two objects that agree on the four identity properties only. *)
Definition storedCoffee : JSObject :=
  [("id", JNum (Finite false 7 0)); ("date", JStr "2024-01-05");
   ("merchant", JStr "Coffee Shop"); ("amount", JNum (Finite true 45 (-1)));
   ("account", JStr "Checking"); ("costCenter", JStr "Office");
   ("status", JStr "Processed")].

Definition freshCoffee : JSObject :=
  [("account", JStr "Checking"); ("amount", JNum (Finite true 45 (-1)));
   ("merchant", JStr "Coffee Shop"); ("date", JStr "2024-01-05");
   ("status", JStr "Review Required")].

End Sample.

(* ================================================================== *)
(** ** The other handlers of the server *)

Module Endpoints.
Import JS Server.

(** [x === y] on numbers in canonical form. *)
Definition numberEquals (x y : JSNumber) : bool :=
  match x, y with
  | Infinity a, Infinity b => Bool.eqb a b
  | Finite a m e, Finite b n f =>
      if ((m =? 0) && (n =? 0))%N then true
      else Bool.eqb a b && (m =? n)%N && (e =? f)
  | _, _ => false
  end.

Fixpoint sameUnits (a b : list N) : bool :=
  match a, b with
  | [], [] => true
  | x :: a', y :: b' => N.eqb x y && sameUnits a' b'
  | _, _ => false
  end.

(** [a === b]. *)
Definition strictEquals (a b : JSValue) : bool :=
  match a, b with
  | JUndefined, JUndefined => true
  | JNull, JNull => true
  | JBool x, JBool y => Bool.eqb x y
  | JNum x, JNum y => numberEquals x y
  | JStr x, JStr y => String.eqb x y
  | JWide b x a, JWide b' y a' =>
      String.eqb b b' && Pos.eqb x y && sameUnits a a'
  | _, _ => false
  end.

(** [process.env.NAME]: a string, or [undefined] when the variable is not
    set. *)
Definition env (value : option string) : JSValue :=
  match value with
  | Some s => JStr s
  | None => JUndefined
  end.

Record LoginReply : Type := {
  loginCode : nat;
  success : bool;
  loginMessage : string
}.

(** [POST /api/auth/login]; [LOGIN_PASSWORD] is the environment variable of
    that name. *)
Definition login (LOGIN_PASSWORD : option string) (body : JSObject) : LoginReply :=
  let password := get body "password" in
  let CORRECT_PASSWORD := or_else (env LOGIN_PASSWORD) (JStr "defaultpassword") in
  if strictEquals password CORRECT_PASSWORD
  then {| loginCode := 200; success := true; loginMessage := "Logged in successfully." |}
  else {| loginCode := 401; success := false; loginMessage := "Incorrect password." |}.

(** What [.insert(..).select()] comes back with: the stored rows, or an
    error. *)
Inductive Inserted : Type :=
| insertData (data : list JSObject)
| insertError (message : string).

Inductive CostCenterReply : Type :=
| badRequest (error : string)
| serverError (error : string)
| created (row : option JSObject).

(** [POST /api/cost-centers]: the answer, and the objects handed to
    [insert]. *)
Definition postCostCenter (insert : JSObject -> Inserted) (body : JSObject)
  : CostCenterReply * list JSObject :=
  let name := get body "name" in
  if negb (truthy name) then (badRequest "Name is required.", [])
  else
    let q := [("name", name)] in
    match insert q with
    | insertError m => (serverError m, [q])
    | insertData data => (created (hd_error data), [q])
    end.

End Endpoints.

(* ================================================================== *)
(** ** The page *)

Module Client.
Import JS Server Endpoints.

(** What [await fetch(..)] ends in: a rejection (the request did not get
    through), or a response with its [ok] flag. *)
Inductive Fetched : Type :=
| rejected
| responded (ok : bool).

(** [{...o, [k]: v}]: a copy of [o] in which property [k] holds [v]. *)
Fixpoint setProp (o : JSObject) (k : string) (v : JSValue) : JSObject :=
  match o with
  | [] => [(k, v)]
  | (k', v') :: o' =>
      if String.eqb k' k then (k, v) :: o' else (k', v') :: setProp o' k v
  end.

(** The optimistic update of [handleCostCenterChange]. *)
Definition changeCostCenter (transactions : list JSObject)
    (transactionId newCostCenter : JSValue) : list JSObject :=
  let newStatus := if truthy newCostCenter then "Processed" else "Review Required" in
  map (fun t =>
         if strictEquals (get t "id") transactionId
         then setProp (setProp t "costCenter" newCostCenter) "status" (JStr newStatus)
         else t)
      transactions.

(** [handleCostCenterChange]: the list of transactions once the PATCH request
    has ended; only a rejected request restores the list. *)
Definition handleCostCenterChange (transactions : list JSObject)
    (transactionId newCostCenter : JSValue) (patch : Fetched) : list JSObject :=
  match patch with
  | rejected => transactions
  | responded _ => changeCostCenter transactions transactionId newCostCenter
  end.

(** The cost centers of the page and the content of the input field. *)
Record CostCenters : Type := {
  costCenters : list string;
  newCostCenter : string
}.

Definition includes (l : list string) (x : string) : bool := existsb (String.eqb x) l.

(** [handleAddCostCenter]: the state after it, and the body of the request
    it sent, if any. *)
Definition handleAddCostCenter (st : CostCenters) (post : Fetched)
  : CostCenters * option JSObject :=
  if String.eqb (newCostCenter st) "" || includes (costCenters st) (newCostCenter st)
  then (st, None)
  else
    let body := [("name", JStr (newCostCenter st))] in
    match post with
    | responded true =>
        ({| costCenters := costCenters st ++ [newCostCenter st]; newCostCenter := "" |},
         Some body)
    | _ => (st, Some body)
    end.

(** [handleRemoveCostCenter]. *)
Definition handleRemoveCostCenter (st : CostCenters) (centerToRemove : string)
    (delete : Fetched) : CostCenters :=
  match delete with
  | responded true =>
      {| costCenters := filter (fun c => negb (String.eqb c centerToRemove)) (costCenters st);
         newCostCenter := newCostCenter st |}
  | _ => st
  end.

End Client.

(* ================================================================== *)
(** ** Reading encodings back *)

(** Inverses of the encodings above and classes of characters; they serve
    the statements and proofs below and are no part of the program. *)
Module Decode.
Import JS.

(** A character no number can start with: [parseFloat] gives NaN on a text
    that begins with one (the letter I is left aside for [Infinity]). *)
Definition cannotStartNumber (c : ascii) : bool :=
  negb (isWhiteSpace c || isDigit c || Ascii.eqb c "+" || Ascii.eqb c "-"
        || Ascii.eqb c "." || Ascii.eqb c "I").

(** The place of a character in the Base64 alphabet, 64 for a character that
    is not in it. *)
Definition base64Index (c : ascii) : N :=
  let n := code c in
  if ((65 <=? n) && (n <=? 90))%N then (n - 65)%N
  else if ((97 <=? n) && (n <=? 122))%N then (n - 71)%N
  else if ((48 <=? n) && (n <=? 57))%N then (n + 4)%N
  else if (n =? 43)%N then 62%N
  else if (n =? 47)%N then 63%N
  else 64%N.

(** The code of the character that [base64Char] gives. *)
Definition base64Code (n : N) : N :=
  (if n <? 26 then 65 + n
   else if n <? 52 then 71 + n
   else if n <? 62 then n - 4
   else if n =? 62 then 43 else 47)%N.

(** The value of a lower-case hexadecimal digit. *)
Definition hexValue (c : ascii) : option N :=
  if isDigit c then Some (code c - 48)%N
  else if ((97 <=? code c) && (code c <=? 102))%N then Some (code c - 87)%N
  else None.

(** One more character in front of what was read. *)
Definition consFst (c : ascii) (r : option (string * string)) : option (string * string) :=
  match r with
  | Some (b, t) => Some (String c b, t)
  | None => None
  end.

(** The inverse of [quoteChars]: the characters up to the closing quote,
    escapes undone, and what follows that quote. *)
Fixpoint unquoteBody (s : string) : option (string * string) :=
  match s with
  | EmptyString => None
  | String c r =>
      if (code c =? 34)%N then Some (EmptyString, r)
      else if (code c =? 92)%N then
        match r with
        | String e r1 =>
            if (code e =? 34)%N then consFst (ascii_of_N 34) (unquoteBody r1)
            else if (code e =? 92)%N then consFst (ascii_of_N 92) (unquoteBody r1)
            else if (code e =? 98)%N then consFst (ascii_of_N 8) (unquoteBody r1)
            else if (code e =? 116)%N then consFst (ascii_of_N 9) (unquoteBody r1)
            else if (code e =? 110)%N then consFst (ascii_of_N 10) (unquoteBody r1)
            else if (code e =? 102)%N then consFst (ascii_of_N 12) (unquoteBody r1)
            else if (code e =? 114)%N then consFst (ascii_of_N 13) (unquoteBody r1)
            else if (code e =? 117)%N then
              match r1 with
              | String _ (String _ (String h1 (String h2 r2))) =>
                  match hexValue h1, hexValue h2 with
                  | Some x, Some y => consFst (ascii_of_N (16 * x + y)) (unquoteBody r2)
                  | _, _ => None
                  end
              | _ => None
              end
            else None
        | EmptyString => None
        end
      else consFst c (unquoteBody r)
  end.

(** What follows a member in the text of an object. *)
Definition afterMember (members : list string) : string :=
  match members with
  | [] => "}"
  | _ :: _ => "," ++ String.concat "," members ++ "}"
  end.

End Decode.

(* ================================================================== *)
(** ** More sample data *)

Module MoreSamples.
Import JS Server Endpoints Client.

(** A table that holds the coffee transaction, and one whose select fails. *)
Definition coffeeStored : Supabase :=
  {| transactions := [recordOf "2024-01-05" Sample.coffeeIso];
     selectFails := false; insertFails := false |}.

Definition brokenSelect : Supabase :=
  {| transactions := []; selectFails := true; insertFails := false |}.

(** A row of a file without a Date column, one with an empty date cell, one
    with a date written as 20240105. *)
Definition noDate : Row :=
  [("Description", JStr "Bakery"); ("Amount", JNum (Finite true 3 0))].

Definition emptyDate : Row :=
  [("Date", JNull); ("Description", JStr "Bakery"); ("Amount", JNum (Finite true 3 0))].

Definition compactDate : Row :=
  [("Date", JNum (Finite false 20240105 0)); ("Description", JStr "Bakery");
   ("Amount", JNum (Finite true 3 0))].

(** A row whose amount carries a currency symbol, next to a numeric Debit. *)
Definition dollarAmount : Row :=
  [("Date", JStr "2024-01-12"); ("Description", JStr "Bookshop");
   ("Amount", JStr "$12.50"); ("Debit", JNum (Finite false 125 (-1)))].

(** A row whose merchant starts with a euro sign (U+20AC), one whose amount
    does, and one dated in the year 49. *)
Definition euroMerchant : Row :=
  [("Date", JStr "2024-01-13");
   ("Description", JWide "" 8109 [32; 83; 116; 111; 114; 101]%N);
   ("Amount", JNum (Finite true 8 0)); ("Account", JStr "Checking")].

Definition euroAmount : Row :=
  [("Date", JStr "2024-01-14"); ("Description", JStr "Market");
   ("Amount", JWide "" 8109 [49; 50; 46; 53; 48]%N); ("Account", JStr "Checking")].

Definition year49Iso : Row :=
  [("Date", JStr "0049-01-05"); ("Description", JStr "Coffee Shop");
   ("Amount", JNum (Finite true 45 (-1))); ("Account", JStr "Checking")].

Definition year49Slash : Row :=
  [("Date", JStr "01/05/0049"); ("Description", JStr "Coffee Shop");
   ("Amount", JNum (Finite true 45 (-1))); ("Account", JStr "Checking")].

(** A table that holds the coffee transaction and the grocer's. *)
Definition twoStored : Supabase :=
  {| transactions := [recordOf "2024-01-05" Sample.coffeeIso;
                      recordOf "2024-01-09" Sample.noAccount];
     selectFails := false; insertFails := false |}.

(** A zero-amount row without a Date cell. *)
Definition zeroAmountNoDate : Row :=
  [("Description", JStr "Fee waiver"); ("Amount", JNum (Finite false 0 0));
   ("Account", JStr "Checking")].

(** Two transactions of the page and its cost centers. *)
Definition pageTransactions : list JSObject :=
  [[("id", JNum (Finite false 1 0)); ("merchant", JStr "Coffee Shop");
    ("costCenter", JNull); ("status", JStr "Review Required")];
   [("id", JNum (Finite false 2 0)); ("merchant", JStr "Bakery");
    ("costCenter", JStr "Office"); ("status", JStr "Processed")]].

Definition pageCostCenters : CostCenters :=
  {| costCenters := ["Office"; "Travel"]; newCostCenter := "Marketing" |}.

End MoreSamples.

(* ================================================================== *)
(** ** The built-ins on known values *)

Import JS Server.

Example parseFloat_decimal : parseFloatString "-4.50" = Finite true 45 (-1).
Proof. reflexivity. Qed.

Example parseFloat_prefix : parseFloatString "  12.5kg" = Finite false 125 (-1).
Proof. reflexivity. Qed.

Example parseFloat_exponent : parseFloatString "1.5e3" = Finite false 15 2.
Proof. reflexivity. Qed.

Example parseFloat_dangling_exponent : parseFloatString "7e+" = Finite false 7 0.
Proof. reflexivity. Qed.

Example parseFloat_no_digits : parseFloatString "-." = NaN.
Proof. reflexivity. Qed.

Example parseFloat_beyond_2_53 :
  parseFloatString "9007199254740993" = Finite false 9007199254740992 0.
Proof. vm_compute. reflexivity. Qed.

Example parseFloat_twenty_digits :
  parseFloatString "12345678901234567890" = Finite false 12345678901234567 3.
Proof. vm_compute. reflexivity. Qed.

Example parseFloat_tenth : parseFloatString "0.1000000000000000055" = Finite false 1 (-1).
Proof. vm_compute. reflexivity. Qed.

Example parseFloat_overflow :
  (parseFloatString "1.7976931348623157e308", parseFloatString "-1.7976931348623159e308")
  = (Finite false 17976931348623157 292, Infinity true).
Proof. vm_compute. reflexivity. Qed.

Example parseFloat_underflow :
  (parseFloatString "5e-324", parseFloatString "2e-324") = (Finite false 5 (-324), Finite false 0 0).
Proof. vm_compute. reflexivity. Qed.

Example parseFloat_undefined : parseFloat JUndefined = NaN.
Proof. reflexivity. Qed.

Example parseFloat_of_number : parseFloat (JNum (Finite true 45 (-1))) = Finite true 45 (-1).
Proof. reflexivity. Qed.

Example numberToString_fraction : numberToString (Finite false 15 (-7)) = "0.0000015".
Proof. reflexivity. Qed.

Example numberToString_exponent : numberToString (Finite false 123 19) = "1.23e+21".
Proof. reflexivity. Qed.

Example parseFloat_euro_first :
  parseFloat (JWide "" 8109 [49; 50; 46; 53; 48]%N) = NaN.
Proof. reflexivity. Qed.

Example parseFloat_euro_last :
  parseFloat (JWide "12.50 " 8109 []) = Finite false 125 (-1).
Proof. reflexivity. Qed.

Example parseFloat_ideographic_space :
  parseFloat (JWide " " 12033 [32; 55; 53]%N) = Finite false 75 0.
Proof. reflexivity. Qed.

Example base64_padding :
  (base64 "hello", base64 "hell", base64 "hel") = ("aGVsbG8=", "aGVsbA==", "aGVs").
Proof. reflexivity. Qed.

Example btoa_wide : btoa None = inl (InvalidCharacterError "Invalid character").
Proof. reflexivity. Qed.

Example stringify_wide :
  JSON_stringify [("merchant", JWide "" 8109 []); ("amount", JNum (Finite true 8 0))] = None.
Proof. reflexivity. Qed.

Example toISOString_leap_day :
  toISOString (newDate Sample.utc (JStr "2000-02-29")) = inr "2000-02-29T00:00:00.000Z".
Proof. vm_compute. reflexivity. Qed.

Example toISOString_day_overflow :
  toISOString (newDate Sample.utc (JStr "2024-02-30")) = inr "2024-03-01T00:00:00.000Z".
Proof. vm_compute. reflexivity. Qed.

Example toISOString_before_epoch :
  toISOString (newDate Sample.utc (JNum (Finite true 1 0))) = inr "1969-12-31T23:59:59.999Z".
Proof. vm_compute. reflexivity. Qed.

Example toISOString_null : toISOString (newDate Sample.utc JNull) = inr "1970-01-01T00:00:00.000Z".
Proof. vm_compute. reflexivity. Qed.

(** [daysFromCivil] and [civilFromDays] are inverse on every day from
    1970-01-01 to the end of 1973, a leap year included. *)
Lemma civil_days_roundtrip :
  forallb (fun z => daysFromCivil (fst (fst (civilFromDays z)))
                                  (snd (fst (civilFromDays z)))
                                  (snd (civilFromDays z)) =? z)
          (map Z.of_nat (seq 0 1461)) = true.
Proof. vm_compute. reflexivity. Qed.

(** The slash form takes a year below 100 for a year of this century or the
    last, the ISO form takes it as it stands. *)
Lemma slash_date_two_digit_year :
  isoDate Sample.utc MoreSamples.year49Slash = inr "2049-01-05"
  /\ isoDate Sample.utc MoreSamples.year49Iso = inr "0049-01-05"
  /\ isoDate Sample.utc [("Date", JStr "01/05/0050")] = inr "1950-01-05"
  /\ isoDate Sample.utc [("Date", JStr "01/05/0100")] = inr "0100-01-05".
Proof. repeat split; vm_compute; reflexivity. Qed.

(** East of Greenwich the local midnight of the slash form falls on the
    previous UTC day. *)
Lemma slash_date_east_of_Greenwich :
  isoDate Sample.cet Sample.coffeeSlash = inr "2024-01-04"
  /\ isoDate Sample.cet Sample.coffeeIso = inr "2024-01-05".
Proof. split; vm_compute; reflexivity. Qed.

(* ================================================================== *)
(** ** The map over the rows *)

(** [createTransactionHash] returns a hash exactly when none of the four
    values it reads is a text with a code unit above 0xFF. *)
Lemma serializeValue_wide (v : JSValue) :
  serializeValue v = beyondLatin1 <-> isWide v = true.
Proof.
  destruct v as [| |b|[|neg|neg m e]|s|b o a]; simpl; split; intros H;
    try discriminate H; reflexivity.
Qed.

Lemma createTransactionHash_returns (o : JSObject) :
  isWide (get o "date") = false -> isWide (get o "merchant") = false ->
  isWide (get o "amount") = false -> isWide (get o "account") = false ->
  exists x, createTransactionHash o = inr x.
Proof.
  intros H1 H2 H3 H4.
  assert (N1 : serializeValue (get o "date") <> beyondLatin1)
    by (rewrite serializeValue_wide, H1; discriminate).
  assert (N2 : serializeValue (get o "merchant") <> beyondLatin1)
    by (rewrite serializeValue_wide, H2; discriminate).
  assert (N3 : serializeValue (get o "amount") <> beyondLatin1)
    by (rewrite serializeValue_wide, H3; discriminate).
  assert (N4 : serializeValue (get o "account") <> beyondLatin1)
    by (rewrite serializeValue_wide, H4; discriminate).
  unfold createTransactionHash, JSON_stringify. cbn [serializeMembers].
  destruct (serializeValue (get o "date")); try contradiction;
    destruct (serializeValue (get o "merchant")); try contradiction;
    destruct (serializeValue (get o "amount")); try contradiction;
    destruct (serializeValue (get o "account")); try contradiction;
    eexists; reflexivity.
Qed.

Lemma createTransactionHash_throws (o : JSObject) :
  isWide (get o "date") || isWide (get o "merchant")
  || isWide (get o "amount") || isWide (get o "account") = true ->
  createTransactionHash o = inl (InvalidCharacterError "Invalid character").
Proof.
  intros H. unfold createTransactionHash, JSON_stringify. cbn [serializeMembers].
  destruct (isWide (get o "date")) eqn:E1;
    [apply serializeValue_wide in E1; rewrite E1; reflexivity|].
  destruct (isWide (get o "merchant")) eqn:E2;
    [apply serializeValue_wide in E2; rewrite E2;
     destruct (serializeValue (get o "date")); reflexivity|].
  destruct (isWide (get o "amount")) eqn:E3;
    [apply serializeValue_wide in E3; rewrite E3;
     destruct (serializeValue (get o "date")), (serializeValue (get o "merchant"));
     reflexivity|].
  destruct (isWide (get o "account")) eqn:E4; [|discriminate].
  apply serializeValue_wide in E4. rewrite E4.
  destruct (serializeValue (get o "date")), (serializeValue (get o "merchant")),
    (serializeValue (get o "amount")); reflexivity.
Qed.

Lemma createTransactionHash_narrow (o : JSObject) (x : string) :
  createTransactionHash o = inr x ->
  isWide (get o "date") = false /\ isWide (get o "merchant") = false
  /\ isWide (get o "amount") = false /\ isWide (get o "account") = false.
Proof.
  intros H.
  destruct (isWide (get o "date") || isWide (get o "merchant")
            || isWide (get o "amount") || isWide (get o "account")) eqn:E.
  - rewrite (createTransactionHash_throws o E) in H. discriminate.
  - rewrite !orb_false_iff in E. tauto.
Qed.

Section Rows.

Variable h : Host.


Lemma isoDate_invalid (row : Row) :
  newDate h (get row "Date") = None ->
  normalizeRow h row = inl (RangeError "Invalid time value").
Proof.
  intros H. unfold normalizeRow, isoDate. rewrite H. reflexivity.
Qed.

(** With a date that converts and a hash that is computed, the callback
    returns the record of the row. *)
Lemma normalizeRow_returns (row : Row) (d x : string) :
  isoDate h row = inr d -> createTransactionHash (hashInput row) = inr x ->
  normalizeRow h row = inr (recordOf d row).
Proof.
  intros H Hx. unfold normalizeRow, recordOf, hashOf. rewrite H, Hx. reflexivity.
Qed.

(** And it returns nothing else. *)
Lemma normalizeRow_record (row : Row) (t : Transaction) :
  normalizeRow h row = inr t ->
  isoDate h row = inr (date t)
  /\ createTransactionHash (hashInput row) = inr (hash t)
  /\ t = recordOf (date t) row.
Proof.
  unfold normalizeRow, recordOf, hashOf.
  destruct (isoDate h row) as [e|d]; [discriminate|].
  destruct (createTransactionHash (hashInput row)) as [e|x]; [discriminate|].
  intros H. inversion H. simpl. repeat split; reflexivity.
Qed.

Lemma normalizeRow_amount (row : Row) (t : Transaction) :
  normalizeRow h row = inr t -> amount t = amountOf row.
Proof.
  intros H. destruct (normalizeRow_record row t H) as [_ [_ ->]]. reflexivity.
Qed.

Lemma mapRows_app (l1 l2 : list Row) :
  mapRows h (l1 ++ l2) =
    match mapRows h l1 with
    | inl e => inl e
    | inr a =>
        match mapRows h l2 with
        | inl e => inl e
        | inr b => inr (a ++ b)%list
        end
    end.
Proof.
  induction l1 as [|row l1 IH]; simpl.
  - destruct (mapRows h l2); reflexivity.
  - destruct (normalizeRow h row) as [e|t]; [reflexivity|].
    rewrite IH. destruct (mapRows h l1) as [e|a]; [reflexivity|].
    destruct (mapRows h l2); reflexivity.
Qed.


(** The exception of the first row that has one is the exception of the
    map: the rows after it are not looked at. *)
Lemma mapRows_first_throw (before after : list Row) (row : Row)
    (ts : list Transaction) (e : JSError) :
  mapRows h before = inr ts -> normalizeRow h row = inl e ->
  mapRows h (before ++ row :: after) = inl e.
Proof.
  intros Hb Hr. rewrite mapRows_app, Hb. simpl. rewrite Hr. reflexivity.
Qed.


(** Every record of [mapRows] is the record of one row of the batch. *)
Lemma mapRows_In (rows : list Row) (ts : list Transaction) (t : Transaction) :
  mapRows h rows = inr ts -> In t ts ->
  exists row, In row rows /\ normalizeRow h row = inr t.
Proof.
  revert ts. induction rows as [|r rows IH]; simpl; intros ts H Hin.
  - inversion H. subst. contradiction.
  - destruct (normalizeRow h r) as [e|t0] eqn:E; [discriminate|].
    destruct (mapRows h rows) as [e|ts0]; [discriminate|].
    inversion H. subst. destruct Hin as [->|Hin].
    + exists r. split; [left; reflexivity | assumption].
    + destruct (IH ts0 eq_refl Hin) as [row [Hr Hn]].
      exists row. split; [right; assumption | assumption].
Qed.

Lemma normalizedData_In (rows : list Row) (nd : list Transaction) (t : Transaction) :
  normalizedData h rows = inr nd -> In t nd ->
  exists row, In row rows /\ normalizeRow h row = inr t /\ isNaN (amount t) = false.
Proof.
  unfold normalizedData. destruct (mapRows h rows) as [e|ts] eqn:E; [discriminate|].
  intros H Hin. inversion H. subst. apply filter_In in Hin. destruct Hin as [Hin Hk].
  destruct (mapRows_In _ _ _ E Hin) as [row [Hr Hn]].
  exists row. repeat split; try assumption.
  unfold hasAmount in Hk. apply negb_true_iff in Hk. exact Hk.
Qed.

(** A row whose amount is NaN leaves no trace in [normalizedData], once the
    callback has returned its record. *)
Lemma normalizedData_skips (before after : list Row) (row : Row) (t : Transaction) :
  normalizeRow h row = inr t -> isNaN (amountOf row) = true ->
  normalizedData h (before ++ row :: after) = normalizedData h (before ++ after).
Proof.
  intros Hr Hn. unfold normalizedData. rewrite !mapRows_app. simpl. rewrite Hr.
  rewrite <- (normalizeRow_amount row t Hr) in Hn.
  destruct (mapRows h before) as [e|a]; [reflexivity|].
  destruct (mapRows h after) as [e|b]; [reflexivity|].
  rewrite !filter_app. simpl. unfold hasAmount at 2. rewrite Hn. reflexivity.
Qed.

(** A row whose amount is a number is kept, one record for one row. *)
Lemma normalizedData_single (row : Row) (t : Transaction) :
  normalizeRow h row = inr t ->
  normalizedData h [row] = inr (if isNaN (amountOf row) then [] else [t]).
Proof.
  intros Hr. unfold normalizedData. simpl. rewrite Hr. simpl. unfold hasAmount.
  rewrite (normalizeRow_amount row t Hr). destruct (isNaN (amountOf row)); reflexivity.
Qed.

(** The handler sees the rows through [normalizedData] only. *)
Lemma upload_normalizedData (db : Supabase) (rows rows' : list Row) :
  normalizedData h rows = normalizedData h rows' ->
  upload h db (Some rows) = upload h db (Some rows').
Proof.
  intros H. unfold upload, newTransactions. rewrite H. reflexivity.
Qed.

(** An exception of the map is answered before any query. *)
Lemma upload_throws (db : Supabase) (rows : list Row) (e : JSError) :
  mapRows h rows = inl e ->
  upload h db (Some rows) = {| response := uploadFailed e; queries := []; database := db |}
  /\ newCount h db rows = None.
Proof.
  intros H. unfold newCount, newTransactions, upload, normalizedData. rewrite H.
  split; reflexivity.
Qed.

End Rows.

(* ------------------------------------------------------------------ *)
(** ** The filter against storage *)

Lemma member_In (x : string) (l : list string) : member x l = true <-> In x l.
Proof.
  unfold member. rewrite existsb_exists. split.
  - intros [y [Hy E]]. apply String.eqb_eq in E. subst. assumption.
  - intros H. exists x. split; [assumption | apply String.eqb_refl].
Qed.

Lemma member_filter (x : string) (stored asked : list string) :
  member x (filter (fun y => member y asked) stored) = member x stored && member x asked.
Proof.
  induction stored as [|a stored IH]; simpl; [reflexivity|].
  destruct (member a asked) eqn:Ea; simpl; rewrite IH.
  - destruct (String.eqb x a) eqn:E; simpl; [|reflexivity].
    apply String.eqb_eq in E. subst. rewrite Ea. reflexivity.
  - destruct (String.eqb x a) eqn:E; simpl; [|reflexivity].
    apply String.eqb_eq in E. subst. rewrite Ea.
    rewrite andb_false_r. reflexivity.
Qed.

Section Filter.

Variables (h : Host) (db : Supabase).

(** [newTransactions] is [normalizedData] without the records whose hash the
    table holds; the records of the batch are not compared with each other. *)
Lemma newTransactions_filter (rows : list Row) (nd : list Transaction) :
  normalizedData h rows = inr nd -> selectFails db = false ->
  newTransactions h db rows = inr (filter (fun t => negb (stored db t)) nd).
Proof.
  intros Hn Hs. unfold newTransactions, selectHashIn. rewrite Hn, Hs.
  f_equal. apply filter_ext_in. intros t Hin. unfold stored.
  rewrite member_filter.
  assert (Hm : member (hash t) (map hash nd) = true).
  { apply member_In. apply in_map. assumption. }
  rewrite Hm, andb_true_r. reflexivity.
Qed.

Lemma normalizedData_cons (row : Row) (rest : list Row) (t : Transaction) :
  normalizeRow h row = inr t -> isNaN (amountOf row) = false ->
  normalizedData h (row :: rest) =
    match normalizedData h rest with
    | inl e => inl e
    | inr ts => inr (t :: ts)
    end.
Proof.
  intros Hr Hn. unfold normalizedData. simpl. rewrite Hr.
  rewrite <- (normalizeRow_amount h row t Hr) in Hn.
  destruct (mapRows h rest) as [e|ts]; [reflexivity|].
  simpl. unfold hasAmount at 1. rewrite Hn. reflexivity.
Qed.

End Filter.

(* ------------------------------------------------------------------ *)
(** ** Numbers with a thousands separator *)

Open Scope string_scope.
Open Scope Z_scope.

Lemma append_empty (s : string) : s ++ "" = s.
Proof. induction s as [|c s IH]; simpl; [reflexivity | rewrite IH; reflexivity]. Qed.

Lemma spanDigits_before (s r : string) (x : ascii) :
  spanDigits s = (s, "") -> isDigit x = false ->
  spanDigits (s ++ String x r) = (s, String x r).
Proof.
  intros Hs Hx. induction s as [|c s IH]; simpl.
  - rewrite Hx. reflexivity.
  - simpl in Hs. destruct (isDigit c); [|discriminate].
    destruct (spanDigits s) as [d' r'] eqn:E.
    injection Hs as Hd Hr. subst d' r'.
    rewrite (IH eq_refl). reflexivity.
Qed.

Lemma allDigits_span (s : string) :
  allDigits s = true -> spanDigits s = (s, "") /\ s <> "".
Proof.
  unfold allDigits. destruct (spanDigits s) as [d r] eqn:E. intros H.
  apply andb_true_iff in H. destruct H as [Hr Hd].
  apply String.eqb_eq in Hr. subst.
  assert (Hsd : forall s d, spanDigits s = (d, "") -> d = s).
  { clear. induction s as [|c s IH]; simpl; intros d H.
    - inversion H. reflexivity.
    - destruct (isDigit c); [|discriminate].
      destruct (spanDigits s) as [d' r'] eqn:E.
      injection H as Hd Hr. subst r'.
      rewrite <- Hd, (IH d' eq_refl). reflexivity. }
  rewrite (Hsd _ _ E) in *. split; [reflexivity|].
  intros ->. simpl in Hd. discriminate.
Qed.

Lemma digit_plain (c : ascii) :
  isDigit c = true ->
  isWhiteSpace c = false /\ Ascii.eqb c "-" = false /\ Ascii.eqb c "+" = false
  /\ Ascii.eqb c "I" = false /\ Ascii.eqb c "," = false.
Proof.
  intros H.
  assert (Hne : forall x : ascii, isDigit x = false -> Ascii.eqb c x = false).
  { intros x Hx. destruct (Ascii.eqb c x) eqn:E; [|reflexivity].
    apply Ascii.eqb_eq in E. subst. rewrite H in Hx. discriminate. }
  split.
  - unfold isDigit, isWhiteSpace in *. apply andb_true_iff in H. destruct H as [H1 H2].
    apply N.leb_le in H1, H2.
    rewrite !orb_false_iff, andb_false_iff, !N.eqb_neq, !N.leb_gt. lia.
  - repeat split; apply Hne; reflexivity.
Qed.

(** A thousands separator ends the number: what follows the comma is not read. *)
Lemma parseFloat_stops_at_comma (ds rest : string) :
  allDigits ds = true ->
  parseFloat (JStr (ds ++ "," ++ rest)) = mkFinite false (digitsValue ds) 0.
Proof.
  intros H. destruct (allDigits_span ds H) as [Hs Hne].
  destruct ds as [|c ds]; [contradiction|].
  assert (Hc : isDigit c = true).
  { simpl in Hs. destruct (isDigit c); [reflexivity | discriminate]. }
  destruct (digit_plain c Hc) as (Hw & Hm & Hp & Hi & _).
  unfold parseFloat, parseFloatString.
  change (String c ds ++ "," ++ rest) with (String c (ds ++ String "," rest)).
  cbn [trimStart]. rewrite Hw, Hm, Hp. unfold parseUnsigned.
  replace (startsWith "Infinity" (String c (ds ++ String "," rest))) with false.
  2:{ cbn [startsWith]. rewrite Ascii.eqb_sym, Hi. reflexivity. }
  change (String c (ds ++ String "," rest)) with (String c ds ++ String "," rest).
  rewrite (spanDigits_before _ rest "," Hs eq_refl).
  replace ("," =? ".")%char with false by reflexivity.
  cbv beta iota zeta. rewrite append_empty. reflexivity.
Qed.

(** Digits alone parse to the number they make. *)
Lemma parseFloat_digits (ds : string) :
  allDigits ds = true ->
  parseFloat (JStr ds) = mkFinite false (digitsValue ds) 0.
Proof.
  intros H. destruct (allDigits_span ds H) as [Hs Hne].
  destruct ds as [|c ds]; [contradiction|].
  assert (Hc : isDigit c = true).
  { simpl in Hs. destruct (isDigit c); [reflexivity | discriminate]. }
  destruct (digit_plain c Hc) as (Hw & Hm & Hp & Hi & _).
  unfold parseFloat, parseFloatString.
  cbn [trimStart]. rewrite Hw, Hm, Hp. unfold parseUnsigned.
  replace (startsWith "Infinity" (String c ds)) with false.
  2:{ cbn [startsWith]. rewrite Ascii.eqb_sym, Hi. reflexivity. }
  rewrite Hs. cbv beta iota zeta. rewrite append_empty. reflexivity.
Qed.

(* ------------------------------------------------------------------ *)
(** ** One date in two spellings *)

Open Scope string_scope.
Open Scope Z_scope.

Lemma isDigits2 s : isDigits 2 s = true ->
  exists a b, s = String a (String b "") /\ isDigit a = true /\ isDigit b = true.
Proof.
  unfold isDigits, allDigits. intros H. apply andb_true_iff in H. destruct H as [Hl Ha].
  apply Nat.eqb_eq in Hl.
  destruct s as [|a [|b [|c s]]]; simpl in Hl; try discriminate.
  exists a, b. split; [reflexivity|].
  simpl in Ha. destruct (isDigit a); [|discriminate]. 
  destruct (isDigit b); [|discriminate]. split; reflexivity.
Qed.

Lemma isDigits4 s : isDigits 4 s = true ->
  exists a b c d,
    s = String a (String b (String c (String d "")))
    /\ isDigit a = true /\ isDigit b = true /\ isDigit c = true /\ isDigit d = true.
Proof.
  unfold isDigits, allDigits. intros H. apply andb_true_iff in H. destruct H as [Hl Ha].
  apply Nat.eqb_eq in Hl.
  destruct s as [|a [|b [|c [|d [|e s]]]]]; simpl in Hl; try discriminate.
  exists a, b, c, d. split; [reflexivity|].
  simpl in Ha. destruct (isDigit a); [|discriminate]. 
  destruct (isDigit b); [|discriminate]. destruct (isDigit c); [|discriminate].
  destruct (isDigit d); [|discriminate]. repeat split; reflexivity.
Qed.

Lemma iso_shaped y m d :
  isDigits 4 y = true -> isDigits 2 m = true -> isDigits 2 d = true ->
  isIsoShaped (isoText y m d) = true
  /\ parseIsoDate (isoText y m d) =
     (if (1 <=? digitsZ m) && (digitsZ m <=? 12) && (1 <=? digitsZ d) && (digitsZ d <=? 31)
      then Some (daysFromCivil (digitsZ y) (digitsZ m) (digitsZ d) * msPerDay)
      else None).
Proof.
  intros Hy Hm Hd.
  destruct (isDigits4 _ Hy) as (y1 & y2 & y3 & y4 & -> & Hy1 & Hy2 & Hy3 & Hy4).
  destruct (isDigits2 _ Hm) as (m1 & m2 & -> & Hm1 & Hm2).
  destruct (isDigits2 _ Hd) as (d1 & d2 & -> & Hd1 & Hd2).
  split.
  - unfold isIsoShaped, isoText, allDigits. simpl.
    rewrite Hy1, Hy2, Hy3, Hy4, Hm1, Hm2, Hd1, Hd2. reflexivity.
  - unfold parseIsoDate, isoText. simpl substring. reflexivity.
Qed.

Lemma digit_not_separator c :
  isDigit c = true -> Ascii.eqb c "/" = false /\ Ascii.eqb c "-" = false.
Proof.
  intros H. split.
  - destruct (Ascii.eqb c "/") eqn:E; [|reflexivity].
    apply Ascii.eqb_eq in E. subst. vm_compute in H. discriminate.
  - destruct (Ascii.eqb c "-") eqn:E; [|reflexivity].
    apply Ascii.eqb_eq in E. subst. vm_compute in H. discriminate.
Qed.

Lemma slash_shaped y m d :
  isDigits 4 y = true -> isDigits 2 m = true -> isDigits 2 d = true ->
  isIsoShaped (slashText y m d) = false /\ slashParts (slashText y m d) = Some (m, d, y).
Proof.
  intros Hy Hm Hd.
  destruct (isDigits4 _ Hy) as (y1 & y2 & y3 & y4 & -> & Hy1 & Hy2 & Hy3 & Hy4).
  destruct (isDigits2 _ Hm) as (m1 & m2 & -> & Hm1 & Hm2).
  destruct (isDigits2 _ Hd) as (d1 & d2 & -> & Hd1 & Hd2).
  split.
  - unfold isIsoShaped, slashText, allDigits. simpl.
    rewrite Hm1, Hm2. reflexivity.
  - unfold slashParts, slashText, allDigits. simpl.
    rewrite Hm1, Hm2. simpl. rewrite Hd1, Hd2. simpl.
    rewrite Hy1, Hy2, Hy3, Hy4. reflexivity.
Qed.

Lemma digitValue_le c : isDigit c = true -> (digitValue c <= 9)%N.
Proof.
  unfold isDigit, digitValue. intros H. apply andb_true_iff in H. destruct H as [H1 H2].
  apply N.leb_le in H1, H2. lia.
Qed.

Lemma digits4_bound y : isDigits 4 y = true -> 0 <= digitsZ y <= 9999.
Proof.
  intros Hy.
  destruct (isDigits4 _ Hy) as (y1 & y2 & y3 & y4 & -> & Hy1 & Hy2 & Hy3 & Hy4).
  apply digitValue_le in Hy1, Hy2, Hy3, Hy4.
  unfold digitsZ, digitsValue. cbn [digitsValueFrom]. lia.
Qed.

Lemma daysFromCivil_bound y m d :
  0 <= y <= 9999 -> 1 <= m <= 12 -> 1 <= d <= 31 ->
  -720000 <= daysFromCivil y m d <= 2940000.
Proof.
  intros Hy Hm Hd. unfold daysFromCivil. cbv zeta.
  destruct (Z.leb_spec m 2); destruct (Z.ltb_spec 2 m); try lia;
    Z.to_euclidean_division_equations; lia.

Qed.

Lemma splitHead_app (c : ascii) (a b b' : string) :
  splitHead c b = splitHead c b' -> splitHead c (a ++ b) = splitHead c (a ++ b').
Proof.
  intros H. induction a as [|x a IH]; simpl; [exact H|].
  destruct (Ascii.eqb x c); [reflexivity | rewrite IH; reflexivity].
Qed.

Lemma isoDate_same_day (h : Host) (r1 r2 : Row) (t1 t2 : Z) :
  newDate h (get r1 "Date") = Some t1 -> newDate h (get r2 "Date") = Some t2 ->
  t1 / msPerDay = t2 / msPerDay ->
  exists dt, isoDate h r1 = inr dt /\ isoDate h r2 = inr dt.
Proof.
  intros H1 H2 Hday. unfold isoDate, toISOString. rewrite H1, H2, <- Hday.
  destruct (civilFromDays (t1 / msPerDay)) as [[y m] dd].
  eexists. split; [reflexivity|]. f_equal.
  do 5 apply splitHead_app. reflexivity.
Qed.

Lemma newDate_iso (h : Host) (y m d : string) :
  isDigits 4 y = true -> isDigits 2 m = true -> isDigits 2 d = true ->
  1 <= digitsZ m <= 12 -> 1 <= digitsZ d <= 31 ->
  newDate h (JStr (isoText y m d))
  = Some (daysFromCivil (digitsZ y) (digitsZ m) (digitsZ d) * msPerDay).
Proof.
  intros Hy Hm Hd Bm Bd.
  destruct (iso_shaped y m d Hy Hm Hd) as [Hs Hp].
  unfold newDate, Date_parse. rewrite Hs, Hp.
  replace ((1 <=? digitsZ m) && (digitsZ m <=? 12)
           && (1 <=? digitsZ d) && (digitsZ d <=? 31)) with true
    by (symmetry; rewrite !andb_true_iff, !Z.leb_le; lia).
  pose proof (daysFromCivil_bound _ _ _ (digits4_bound y Hy) Bm Bd) as B.
  unfold timeClip, msPerDay in *.
  match goal with |- context [Z.abs ?t <=? ?b] => destruct (Z.leb_spec (Z.abs t) b) end;
    [reflexivity | lia].
Qed.

Lemma legacyYear_bound (y : Z) : 0 <= y <= 9999 -> 0 <= legacyYear y <= 9999.
Proof.
  intros H. unfold legacyYear.
  destruct (Z.ltb_spec y 50); [lia|]. destruct (Z.ltb_spec y 100); lia.
Qed.

Lemma legacyYear_from_100 (y : Z) : 100 <= y -> legacyYear y = y.
Proof.
  intros H. unfold legacyYear.
  destruct (Z.ltb_spec y 50); [lia|]. destruct (Z.ltb_spec y 100); [lia | reflexivity].
Qed.

Lemma newDate_slash (h : Host) (y m d : string) :
  isDigits 4 y = true -> isDigits 2 m = true -> isDigits 2 d = true ->
  1 <= digitsZ m <= 12 -> 1 <= digitsZ d <= 31 ->
  (forall t, - msPerDay < localTZA h t < msPerDay) ->
  newDate h (JStr (slashText y m d))
  = Some (daysFromCivil (legacyYear (digitsZ y)) (digitsZ m) (digitsZ d) * msPerDay
          - localTZA h (daysFromCivil (legacyYear (digitsZ y)) (digitsZ m)
                                      (digitsZ d) * msPerDay)).
Proof.
  intros Hy Hm Hd Bm Bd Bz.
  destruct (slash_shaped y m d Hy Hm Hd) as [Hs Hp].
  unfold newDate, Date_parse. rewrite Hs, Hp. unfold parseSlashDate.
  replace ((1 <=? digitsZ m) && (digitsZ m <=? 12)
           && (1 <=? digitsZ d) && (digitsZ d <=? 31)) with true
    by (symmetry; rewrite !andb_true_iff, !Z.leb_le; lia).
  pose proof (daysFromCivil_bound _ _ _ (legacyYear_bound _ (digits4_bound y Hy)) Bm Bd) as B.
  cbv zeta.
  pose proof (Bz (daysFromCivil (legacyYear (digitsZ y)) (digitsZ m) (digitsZ d)
                  * msPerDay)) as Bt.
  unfold timeClip, msPerDay in *.
  match goal with |- context [Z.abs ?t <=? ?b] => destruct (Z.leb_spec (Z.abs t) b) end;
    [reflexivity | lia].
Qed.

Lemma same_day_west (D tz : Z) : - msPerDay < tz <= 0 ->
  D * msPerDay / msPerDay = (D * msPerDay - tz) / msPerDay.
Proof.
  intros H. unfold msPerDay in *. Z.to_euclidean_division_equations. lia.
Qed.

Open Scope list_scope.

(** Two rows that are kept and whose hashes the table does not hold are both
    new, and both are inserted when the insert goes through. *)
Lemma two_new_rows (h : Host) (db : Supabase) (r1 r2 : Row) (t1 t2 : Transaction) :
  normalizeRow h r1 = inr t1 -> isNaN (amountOf r1) = false ->
  normalizeRow h r2 = inr t2 -> isNaN (amountOf r2) = false ->
  selectFails db = false -> stored db t1 = false -> stored db t2 = false ->
  normalizedData h [r1; r2] = inr [t1; t2]
  /\ newTransactions h db [r1; r2] = inr [t1; t2]
  /\ newCount h db [r1; r2] = Some 2%nat
  /\ duplicateCount h db [r1; r2] = Some 0%nat
  /\ (insertFails db = false ->
      upload h db (Some [r1; r2]) =
        {| response := json 200 "2 new transactions processed and saved successfully.";
           queries := [SelectHashIn [hash t1; hash t2]; Insert [t1; t2]];
           database := withRecords db [t1; t2] |}).
Proof.
  intros Hr1 Ha1 Hr2 Ha2 Hs Hn1 Hn2.
  assert (Hnd : normalizedData h [r1; r2] = inr [t1; t2]).
  { rewrite (normalizedData_cons h r1 [r2] t1 Hr1 Ha1).
    rewrite (normalizedData_single h r2 t2 Hr2), Ha2. reflexivity. }
  assert (Hnew : newTransactions h db [r1; r2] = inr [t1; t2]).
  { rewrite (newTransactions_filter h db _ _ Hnd Hs). simpl.
    rewrite Hn1, Hn2. reflexivity. }
  split; [exact Hnd|]. split; [exact Hnew|].
  split; [unfold newCount; rewrite Hnew; reflexivity|].
  split; [unfold duplicateCount; rewrite Hnd, Hnew; reflexivity|].
  intros Hi. unfold upload. rewrite Hnd, Hnew, Hi. reflexivity.
Qed.

(* ================================================================== *)
(** ** The claims *)

(** C1, as stated, fails on the specification's own example, uploaded to an
    empty table on a UTC server: both records carry the date 2024-01-05, but
    their hashes differ, both records are new, newCount is 2 and
    duplicateCount is 0. *)
Lemma C1_counterexample :
  let rows := [Sample.coffeeIso; Sample.coffeeSlash] in
  let t1 := recordOf "2024-01-05" Sample.coffeeIso in
  let t2 := recordOf "2024-01-05" Sample.coffeeSlash in
  normalizedData Sample.utc rows = inr [t1; t2]
  /\ hash t1 <> hash t2
  /\ newTransactions Sample.utc Sample.emptyTable rows = inr [t1; t2]
  /\ newCount Sample.utc Sample.emptyTable rows = Some 2%nat
  /\ duplicateCount Sample.utc Sample.emptyTable rows = Some 0%nat
  /\ response (upload Sample.utc Sample.emptyTable (Some rows))
     = json 200 "2 new transactions processed and saved successfully.".
Proof.
  cbv zeta. repeat split; try (vm_compute; reflexivity).
  intros H. apply String.eqb_eq in H. vm_compute in H. discriminate.
Qed.

(** C1, amended.  For every pair of rows that denote the same transaction and
    spell its date as YYYY-MM-DD and as MM/DD/YYYY, the year being 0100 or
    later, on a server whose local time is never ahead of UTC (UTC or west
    of it), normalization produces the same canonical calendar date for
    both.  The records of a batch are compared with the stored hashes only:
    when the merchant and the account of the rows have no code unit above
    0xFF, their amount is a number, storage holds the hash of neither row and
    answers the select and the insert, ingesting the two rows together
    inserts both; the answer counts 2 new transactions, newCount is 2 and
    duplicateCount is 0. *)
Theorem C1_two_date_formats_one_date (h : Host) (db : Supabase) (y m d : string)
    (cells : Row) :
  isDigits 4 y = true -> isDigits 2 m = true -> isDigits 2 d = true ->
  100 <= digitsZ y -> 1 <= digitsZ m <= 12 -> 1 <= digitsZ d <= 31 ->
  (forall t, - msPerDay < localTZA h t <= 0) ->
  exists date,
    isoDate h (("Date", JStr (isoText y m d)) :: cells) = inr date
    /\ isoDate h (("Date", JStr (slashText y m d)) :: cells) = inr date
    /\ (isWide (merchantOf cells) = false -> isWide (accountOf cells) = false ->
        isNaN (amountOf cells) = false ->
        selectFails db = false -> insertFails db = false ->
        storedRow db (("Date", JStr (isoText y m d)) :: cells) = false ->
        storedRow db (("Date", JStr (slashText y m d)) :: cells) = false ->
        newTransactions h db [("Date", JStr (isoText y m d)) :: cells;
                              ("Date", JStr (slashText y m d)) :: cells]
        = inr [recordOf date (("Date", JStr (isoText y m d)) :: cells);
               recordOf date (("Date", JStr (slashText y m d)) :: cells)]
        /\ newCount h db [("Date", JStr (isoText y m d)) :: cells;
                          ("Date", JStr (slashText y m d)) :: cells] = Some 2%nat
        /\ duplicateCount h db [("Date", JStr (isoText y m d)) :: cells;
                                ("Date", JStr (slashText y m d)) :: cells] = Some 0%nat
        /\ response (upload h db (Some [("Date", JStr (isoText y m d)) :: cells;
                                        ("Date", JStr (slashText y m d)) :: cells]))
           = json 200 "2 new transactions processed and saved successfully.").
Proof.
  intros Hy Hm Hd By Bm Bd Bz.
  set (r1 := ("Date", JStr (isoText y m d)) :: cells).
  set (r2 := ("Date", JStr (slashText y m d)) :: cells).
  assert (H1 : newDate h (get r1 "Date")
               = Some (daysFromCivil (digitsZ y) (digitsZ m) (digitsZ d) * msPerDay))
    by (apply newDate_iso; assumption).
  assert (H2 : newDate h (get r2 "Date")
               = Some (daysFromCivil (digitsZ y) (digitsZ m) (digitsZ d) * msPerDay
                       - localTZA h (daysFromCivil (digitsZ y) (digitsZ m)
                                                   (digitsZ d) * msPerDay))).
  { rewrite <- (legacyYear_from_100 (digitsZ y) By).
    apply newDate_slash; try assumption. intros t. specialize (Bz t). lia. }
  destruct (isoDate_same_day h r1 r2 _ _ H1 H2 (same_day_west _ _ (Bz _)))
    as [date [Hd1 Hd2]].
  exists date. split; [exact Hd1|]. split; [exact Hd2|].
  intros Wm Wa Ha Hs Hi Hn1 Hn2.
  destruct (createTransactionHash_returns (hashInput r1) eq_refl Wm eq_refl Wa)
    as [x1 Hx1].
  destruct (createTransactionHash_returns (hashInput r2) eq_refl Wm eq_refl Wa)
    as [x2 Hx2].
  destruct (two_new_rows h db r1 r2 (recordOf date r1) (recordOf date r2)
              (normalizeRow_returns h r1 date x1 Hd1 Hx1) Ha
              (normalizeRow_returns h r2 date x2 Hd2 Hx2) Ha Hs Hn1 Hn2)
    as [_ [Hnew [Hc [Hdup Hup]]]].
  split; [exact Hnew|]. split; [exact Hc|]. split; [exact Hdup|].
  exact (f_equal response (Hup Hi)).
Qed.

Lemma C1_two_date_formats_one_date_witness :
  isoDate Sample.utc (("Date", JStr (isoText "2024" "01" "05")) :: Sample.coffeeCells)
    = inr "2024-01-05"
  /\ isoDate Sample.utc (("Date", JStr (slashText "2024" "01" "05")) :: Sample.coffeeCells)
    = inr "2024-01-05"
  /\ exists date,
      isoDate Sample.utc (("Date", JStr (isoText "2024" "01" "05")) :: Sample.coffeeCells)
        = inr date
      /\ response (upload Sample.utc Sample.emptyTable
                     (Some [("Date", JStr (isoText "2024" "01" "05")) :: Sample.coffeeCells;
                            ("Date", JStr (slashText "2024" "01" "05"))
                              :: Sample.coffeeCells]))
         = json 200 "2 new transactions processed and saved successfully.".
Proof.
  split; [vm_compute; reflexivity|]. split; [vm_compute; reflexivity|].
  destruct (C1_two_date_formats_one_date Sample.utc Sample.emptyTable
              "2024" "01" "05" Sample.coffeeCells
              ltac:(reflexivity) ltac:(reflexivity) ltac:(reflexivity)
              ltac:(vm_compute; discriminate)
              ltac:(vm_compute; split; discriminate)
              ltac:(vm_compute; split; discriminate)
              ltac:(intros t; unfold msPerDay; simpl; lia))
    as [date [H1 [_ H3]]].
  exists date. split; [exact H1|].
  destruct (H3 ltac:(reflexivity) ltac:(reflexivity) ltac:(reflexivity)
               ltac:(reflexivity) ltac:(reflexivity)
               ltac:(reflexivity) ltac:(reflexivity)) as [_ [_ [_ H4]]].
  exact H4.
Defined.

(** The hash of a record is computed from [row.Date] as it stands in the
    file, not from the [date] property of the record. *)
Lemma hash_reads_row_Date (h : Host) (row : Row) (t : Transaction) :
  normalizeRow h row = inr t ->
  btoa (JSON_stringify [("date", get row "Date");
                        ("merchant", merchant t);
                        ("amount", JNum (amount t));
                        ("account", account t)]) = inr (hash t).
Proof.
  intros H. destruct (normalizeRow_record h row t H) as [_ [Hx Ht]].
  rewrite Ht at 1 2 3. exact Hx.
Qed.

(** C2, as stated, fails: a batch that holds the same row twice, uploaded to
    an empty table, has both occurrences in [newTransactions]; the second one
    is not counted as a duplicate. *)
Lemma C2_counterexample :
  let rows := [Sample.coffeeIso; Sample.coffeeIso] in
  let t := recordOf "2024-01-05" Sample.coffeeIso in
  newTransactions Sample.utc Sample.emptyTable rows = inr [t; t]
  /\ newCount Sample.utc Sample.emptyTable rows = Some 2%nat
  /\ duplicateCount Sample.utc Sample.emptyTable rows = Some 0%nat
  /\ queries (upload Sample.utc Sample.emptyTable (Some rows))
     = [SelectHashIn [hash t; hash t]; Insert [t; t]].
Proof. cbv zeta. repeat split; vm_compute; reflexivity. Qed.

(** C2, amended.  For every batch, a record is classified as new and kept for
    insertion exactly when storage holds no row of its identity hash: every
    occurrence of a hash that storage does not hold is kept, the repeated
    ones as well, and the occurrences of a stored hash are the duplicates
    that duplicateCount counts.  In particular a batch none of whose hashes
    is stored is inserted whole. *)
Theorem C2_new_iff_not_stored (h : Host) (db : Supabase) (rows : list Row)
    (nd : list Transaction) :
  normalizedData h rows = inr nd -> selectFails db = false ->
  newTransactions h db rows = inr (filter (fun t => negb (stored db t)) nd)
  /\ newCount h db rows = Some (List.length (filter (fun t => negb (stored db t)) nd))
  /\ duplicateCount h db rows = Some (List.length (filter (stored db) nd))
  /\ ((forall t, In t nd -> stored db t = false) ->
      newTransactions h db rows = inr nd).
Proof.
  intros Hn Hs. pose proof (newTransactions_filter h db rows nd Hn Hs) as Hf.
  split; [exact Hf|]. split; [unfold newCount; rewrite Hf; reflexivity|].
  split.
  - unfold duplicateCount. rewrite Hn, Hf. f_equal.
    pose proof (filter_length (stored db) nd) as Hl. lia.
  - intros Hall. rewrite Hf. f_equal.
    induction nd as [|t nd' IH] in Hall |- *; simpl; [reflexivity|].
    rewrite (Hall t (or_introl eq_refl)). simpl. f_equal.
    apply IH. intros t' Ht'. apply Hall. right. assumption.
Qed.

Lemma C2_new_iff_not_stored_witness :
  let rows := [Sample.coffeeIso; Sample.coffeeIso] in
  let t := recordOf "2024-01-05" Sample.coffeeIso in
  newTransactions Sample.utc Sample.emptyTable rows
    = inr (filter (fun t => negb (stored Sample.emptyTable t)) [t; t])
  /\ duplicateCount Sample.utc Sample.emptyTable rows
    = Some (List.length (filter (stored Sample.emptyTable) [t; t])).
Proof.
  cbv zeta.
  pose proof (C2_new_iff_not_stored Sample.utc Sample.emptyTable
                [Sample.coffeeIso; Sample.coffeeIso]
                [recordOf "2024-01-05" Sample.coffeeIso;
                 recordOf "2024-01-05" Sample.coffeeIso]
                ltac:(vm_compute; reflexivity) ltac:(reflexivity)) as [H1 [_ [H3 _]]].
  split; [exact H1 | exact H3].
Defined.




(** C4, as stated, fails: "1,234.56" parses to 1, not to 1234.56, and a row
    whose amount is no number leaves the upload's outcome exactly as it is
    without that row, so nothing records its rejection. *)
Lemma C4_counterexample :
  amountOf Sample.thousands = Finite false 1 0
  /\ amountOf Sample.thousands <> Finite false 123456 (-2)
  /\ upload Sample.utc Sample.emptyTable (Some [Sample.badAmount; Sample.coffeeIso])
     = upload Sample.utc Sample.emptyTable (Some [Sample.coffeeIso]).
Proof.
  split; [reflexivity|]. split; [vm_compute; discriminate|].
  vm_compute. reflexivity.
Qed.

(** C4, amended.  The amount of a row is [parseFloat] of the first truthy
    one of Amount and Debit: a number is read up to the first character that
    cannot continue a decimal literal, so a thousands separator ends it
    (digits followed by a comma parse to the number that the digits before
    the comma make, "1,234.56" to 1).  A row for which the callback
    returns a record (its date converts, and its date, merchant and account
    have no code unit above 0xFF) and whose amount is NaN is silently left
    out: the outcome of the upload (response, queries, table) is the one of
    the batch without that row, and nothing records it. *)
Theorem C4_amount_parseFloat_silent_drop (h : Host) (db : Supabase)
    (before after : list Row) (row : Row) (t : Transaction) :
  normalizeRow h row = inr t -> isNaN (amountOf row) = true ->
  (forall h' r t', normalizeRow h' r = inr t' ->
     amount t' = parseFloat (or_else (get r "Amount") (get r "Debit")))
  /\ (forall ds rest, allDigits ds = true ->
       parseFloat (JStr (ds ++ "," ++ rest)%string) = parseFloat (JStr ds))
  /\ normalizedData h (before ++ row :: after) = normalizedData h (before ++ after)
  /\ upload h db (Some (before ++ row :: after)) = upload h db (Some (before ++ after)).
Proof.
  intros Hr Hn.
  split; [intros h' r t' Hr'; rewrite (normalizeRow_amount h' r t' Hr'); reflexivity|].
  split; [intros ds rest Hds;
          rewrite (parseFloat_digits ds Hds); apply parseFloat_stops_at_comma; exact Hds|].
  pose proof (normalizedData_skips h before after row t Hr Hn) as Hs.
  split; [exact Hs|]. apply upload_normalizedData. exact Hs.
Qed.

Lemma C4_amount_parseFloat_silent_drop_witness :
  normalizeRow Sample.utc Sample.badAmount = inr (recordOf "2024-01-08" Sample.badAmount)
  /\ isNaN (amountOf Sample.badAmount) = true
  /\ parseFloat (JStr ("1" ++ "," ++ "234.56")%string) = parseFloat (JStr "1")
  /\ upload Sample.utc Sample.emptyTable
       (Some ([Sample.thousands] ++ Sample.badAmount :: [Sample.coffeeIso]))
     = upload Sample.utc Sample.emptyTable
         (Some ([Sample.thousands] ++ [Sample.coffeeIso])).
Proof.
  split; [vm_compute; reflexivity|]. split; [reflexivity|].
  destruct (C4_amount_parseFloat_silent_drop Sample.utc Sample.emptyTable
              [Sample.thousands] [Sample.coffeeIso] Sample.badAmount
              (recordOf "2024-01-08" Sample.badAmount)
              ltac:(vm_compute; reflexivity) ltac:(reflexivity)) as [_ [H1 [_ H3]]].
  split; [|exact H3].
  apply (H1 "1"%string "234.56"%string). reflexivity.
Defined.

(** The merchant is blank when both of its cells are, and when the
    Description holds blanks only, whatever the Merchant cell holds. *)
Lemma blank_merchant (row : Row) :
  (isBlank (get row "Description") = true -> isBlank (get row "Merchant") = true ->
   isBlank (merchantOf row) = true)
  /\ (isBlank (get row "Description") = true -> truthy (get row "Description") = true ->
      isBlank (merchantOf row) = true).
Proof.
  unfold merchantOf, or_else. split.
  - intros Ha Hb. destruct (truthy (get row "Description")); assumption.
  - intros Ha Ht. rewrite Ht. exact Ha.
Qed.

(** C5, as stated, fails: a batch of one row with an empty merchant cell and
    one valid row, uploaded to an empty table, has both rows inserted; the
    record of the first has [undefined] for its merchant (the empty
    Description gives way to a Merchant column the file does not have).  A
    merchant of blanks only is kept as it is. *)
Lemma C5_counterexample :
  let rows := [Sample.blankMerchant; Sample.coffeeIso] in
  newTransactions Sample.utc Sample.emptyTable rows
    = inr [recordOf "2024-01-06" Sample.blankMerchant;
           recordOf "2024-01-05" Sample.coffeeIso]
  /\ merchant (recordOf "2024-01-06" Sample.blankMerchant) = JUndefined
  /\ newCount Sample.utc Sample.emptyTable rows = Some 2%nat
  /\ response (upload Sample.utc Sample.emptyTable (Some rows))
     = json 200 "2 new transactions processed and saved successfully."
  /\ normalizedData Sample.utc [Sample.spacesMerchant]
     = inr [recordOf "2024-01-06" Sample.spacesMerchant]
  /\ merchant (recordOf "2024-01-06" Sample.spacesMerchant) = JStr "   ".
Proof. cbv zeta. repeat split; vm_compute; reflexivity. Qed.

(** C5, amended.  The merchant of a row is the first truthy one of
    Description and Merchant, taken as it is: it is not trimmed, and a row
    whose merchant is empty or blank is not rejected.  When the callback
    returns a record for such a row (its date converts, and its date,
    merchant and account have no code unit above 0xFF) and its amount is a
    number, the row is kept, its merchant still blank; in particular a batch
    of one blank-merchant row and one fully valid row, neither of them
    stored, with storage answering the select and the insert, has both rows
    inserted: the answer counts 2 new transactions, newCount is 2 and there
    is no duplicate. *)
Theorem C5_blank_merchant_is_kept (h : Host) (db : Supabase) (blank valid : Row)
    (t1 t2 : Transaction) :
  isBlank (merchantOf blank) = true ->
  normalizeRow h blank = inr t1 -> isNaN (amountOf blank) = false ->
  normalizeRow h valid = inr t2 -> isNaN (amountOf valid) = false ->
  selectFails db = false -> insertFails db = false ->
  stored db t1 = false -> stored db t2 = false ->
  (forall h' r t, normalizeRow h' r = inr t ->
     merchant t = or_else (get r "Description") (get r "Merchant"))
  /\ isBlank (merchant t1) = true
  /\ normalizedData h [blank] = inr [t1]
  /\ newTransactions h db [blank; valid] = inr [t1; t2]
  /\ newCount h db [blank; valid] = Some 2%nat
  /\ duplicateCount h db [blank; valid] = Some 0%nat
  /\ response (upload h db (Some [blank; valid]))
     = json 200 "2 new transactions processed and saved successfully.".
Proof.
  intros Hb Hr1 Ha1 Hr2 Ha2 Hs Hi Hn1 Hn2.
  assert (Hm : forall h' r t, normalizeRow h' r = inr t ->
                 merchant t = or_else (get r "Description") (get r "Merchant")).
  { intros h' r t Hr. destruct (normalizeRow_record h' r t Hr) as [_ [_ ->]].
    reflexivity. }
  split; [exact Hm|].
  split; [rewrite (Hm h blank t1 Hr1); exact Hb|].
  split; [rewrite (normalizedData_single h blank t1 Hr1), Ha1; reflexivity|].
  destruct (two_new_rows h db blank valid t1 t2 Hr1 Ha1 Hr2 Ha2 Hs Hn1 Hn2)
    as [_ [Hnew [Hc [Hdup Hup]]]].
  split; [exact Hnew|]. split; [exact Hc|]. split; [exact Hdup|].
  exact (f_equal response (Hup Hi)).
Qed.

Lemma C5_blank_merchant_is_kept_witness :
  merchantOf Sample.spacesMerchant = JStr "   "
  /\ isBlank (merchantOf Sample.spacesMerchant) = true
  /\ isBlank (merchant (recordOf "2024-01-06" Sample.spacesMerchant)) = true
  /\ response (upload Sample.utc Sample.emptyTable
                 (Some [Sample.spacesMerchant; Sample.coffeeIso]))
     = json 200 "2 new transactions processed and saved successfully.".
Proof.
  split; [reflexivity|]. split; [reflexivity|].
  pose proof (C5_blank_merchant_is_kept Sample.utc Sample.emptyTable
                Sample.spacesMerchant Sample.coffeeIso
                (recordOf "2024-01-06" Sample.spacesMerchant)
                (recordOf "2024-01-05" Sample.coffeeIso)
                ltac:(reflexivity)
                ltac:(vm_compute; reflexivity) ltac:(reflexivity)
                ltac:(vm_compute; reflexivity) ltac:(reflexivity)
                ltac:(reflexivity) ltac:(reflexivity)
                ltac:(reflexivity) ltac:(reflexivity))
    as [_ [H2 [_ [_ [_ [_ H7]]]]]].
  split; [exact H2 | exact H7].
Defined.

(** C6.  If the bulk insert fails, the upload as a whole is reported failed:
    the response is the single 500 "File upload failed: Database insertion
    failed.", which carries no count of new transactions; the table is left
    as it was; and the insert was issued once, with no second attempt. *)
Theorem C6_failed_insert_fails_upload (h : Host) (db : Supabase) (rows : list Row)
    (nd new : list Transaction) :
  normalizedData h rows = inr nd ->
  newTransactions h db rows = inr new -> new <> [] ->
  insertFails db = true ->
  upload h db (Some rows) =
    {| response := json 500 "File upload failed: Database insertion failed.";
       queries := [SelectHashIn (map hash nd); Insert new];
       database := db |}.
Proof.
  intros Hn Hnew Hne Hf. unfold upload. rewrite Hn, Hnew, Hf.
  destruct new as [|t new']; [contradiction|]. reflexivity.
Qed.

Lemma C6_failed_insert_fails_upload_witness :
  normalizedData Sample.utc Sample.tenRows = inr Sample.tenRecords
  /\ newTransactions Sample.utc Sample.failingInsert Sample.tenRows = inr Sample.tenRecords
  /\ List.length Sample.tenRecords = 10%nat
  /\ upload Sample.utc Sample.failingInsert (Some Sample.tenRows) =
       {| response := json 500 "File upload failed: Database insertion failed.";
          queries := [SelectHashIn (map hash Sample.tenRecords); Insert Sample.tenRecords];
          database := Sample.failingInsert |}.
Proof.
  split; [vm_compute; reflexivity|]. split; [vm_compute; reflexivity|].
  split; [reflexivity|].
  apply (C6_failed_insert_fails_upload Sample.utc Sample.failingInsert
           Sample.tenRows Sample.tenRecords Sample.tenRecords);
    [vm_compute; reflexivity | vm_compute; reflexivity
     | vm_compute; discriminate | reflexivity].
Defined.



Lemma missing_account (row : Row) :
  isMissing (get row "Account") = true -> accountOf row = JStr "Default".
Proof.
  intros Hm. unfold accountOf, or_else.
  destruct (get row "Account") as [| |b|n|s|b o a]; simpl in *; try discriminate;
    try reflexivity.
  rewrite Hm. reflexivity.
Qed.

(** C8.  A row whose Account is missing gets the account "Default": in the
    input of its hash, and in every record the callback returns for it.  It
    is not rejected for the missing account: whenever the callback returns a
    record for the row with some account written into that cell, it returns
    one for the row as it is, with the same date, merchant and amount, which
    stays in the batch under the same condition (its amount is a number). *)
Theorem C8_missing_account_defaults (h : Host) (row : Row) :
  isMissing (get row "Account") = true ->
  accountOf row = JStr "Default"
  /\ get (hashInput row) "account" = JStr "Default"
  /\ (forall t, normalizeRow h row = inr t ->
       account t = JStr "Default"
       /\ normalizedData h [row] = inr (if isNaN (amount t) then [] else [t]))
  /\ (forall v t', normalizeRow h (("Account", v) :: row) = inr t' ->
       exists t, normalizeRow h row = inr t
                 /\ account t = JStr "Default"
                 /\ date t = date t' /\ merchant t = merchant t' /\ amount t = amount t'
                 /\ normalizedData h [row] = inr (if isNaN (amount t') then [] else [t])).
Proof.
  intros Hm. pose proof (missing_account row Hm) as Ha.
  split; [exact Ha|]. split; [simpl; exact Ha|]. split.
  - intros t Ht. split.
    + destruct (normalizeRow_record h row t Ht) as [_ [_ ->]]. exact Ha.
    + rewrite (normalizedData_single h row t Ht), (normalizeRow_amount h row t Ht).
      reflexivity.
  - intros v t' Ht'.
    destruct (normalizeRow_record h _ t' Ht') as [Hd' [Hx' Hrec']].
    destruct (createTransactionHash_narrow _ _ Hx') as [W1 [W2 _]].
    destruct (createTransactionHash_returns (hashInput row)) as [x Hx];
      [exact W1 | exact W2 | reflexivity | simpl; rewrite Ha; reflexivity |].
    assert (Hd : isoDate h row = inr (date t')) by exact Hd'.
    pose proof (normalizeRow_returns h row (date t') x Hd Hx) as Hr.
    exists (recordOf (date t') row). split; [exact Hr|].
    split; [exact Ha|]. split; [reflexivity|].
    rewrite Hrec'. split; [reflexivity|]. split; [reflexivity|].
    rewrite (normalizedData_single h row _ Hr). reflexivity.
Qed.

Lemma C8_missing_account_defaults_witness :
  isMissing (get Sample.noAccount "Account") = true
  /\ account (recordOf "2024-01-09" Sample.noAccount) = JStr "Default"
  /\ normalizedData Sample.utc [Sample.noAccount]
     = inr [recordOf "2024-01-09" Sample.noAccount]
  /\ exists t, normalizeRow Sample.utc Sample.noAccount = inr t
               /\ account t = JStr "Default".
Proof.
  split; [reflexivity|].
  destruct (C8_missing_account_defaults Sample.utc Sample.noAccount
              ltac:(reflexivity)) as [_ [_ [H3 H4]]].
  destruct (H3 (recordOf "2024-01-09" Sample.noAccount) ltac:(vm_compute; reflexivity))
    as [Ha Hn].
  split; [exact Ha|]. split; [exact Hn|].
  destruct (H4 (JStr "Savings")
               (recordOf "2024-01-09" (("Account", JStr "Savings") :: Sample.noAccount))
               ltac:(vm_compute; reflexivity)) as [t [Ht [Hacc _]]].
  exists t. split; [exact Ht | exact Hacc].
Defined.

Lemma normalizeRow_hash (h : Host) (row : Row) (t : Transaction) :
  normalizeRow h row = inr t -> createTransactionHash (hashInput row) = inr (hash t).
Proof. intros H. apply (normalizeRow_record h row t H). Qed.

(** C9.  The identity hash is a function of the four properties date,
    merchant, amount and account of its argument: two invocations on objects
    that agree on these four give the same hash, whatever else the objects
    hold and in whatever order; and in two runs of the upload the records of
    the same row carry the same hash, which is the hash of the row's own four
    values, whatever the host, the time and the other rows of the batch. *)
Theorem C9_hash_deterministic (o1 o2 : JSObject) :
  get o1 "date" = get o2 "date" ->
  get o1 "merchant" = get o2 "merchant" ->
  get o1 "amount" = get o2 "amount" ->
  get o1 "account" = get o2 "account" ->
  createTransactionHash o1 = createTransactionHash o2
  /\ forall (h1 h2 : Host) (row : Row) (t1 t2 : Transaction),
       normalizeRow h1 row = inr t1 -> normalizeRow h2 row = inr t2 ->
       hash t1 = hash t2 /\ inr (hash t1) = createTransactionHash (hashInput row).
Proof.
  intros Hd Hm Ha Hc. split.
  - unfold createTransactionHash. rewrite Hd, Hm, Ha, Hc. reflexivity.
  - intros h1 h2 row t1 t2 H1 H2.
    pose proof (normalizeRow_hash h1 row t1 H1) as E1.
    pose proof (normalizeRow_hash h2 row t2 H2) as E2.
    split; [congruence | symmetry; exact E1].
Qed.

Lemma C9_hash_deterministic_witness :
  createTransactionHash Sample.storedCoffee = createTransactionHash Sample.freshCoffee.
Proof.
  apply (C9_hash_deterministic Sample.storedCoffee Sample.freshCoffee); reflexivity.
Defined.

(** In the upload, the hash of a record is the hash of the row it comes from:
    neither the host, nor the table, nor the place of the row in the batch
    has a part in it. *)
Lemma record_hash_of_its_row (h : Host) (rows : list Row) (nd : list Transaction)
    (t : Transaction) :
  normalizedData h rows = inr nd -> In t nd ->
  exists row, In row rows /\ createTransactionHash (hashInput row) = inr (hash t).
Proof.
  intros Hn Hin.
  destruct (normalizedData_In h rows nd t Hn Hin) as [row [Hr [Ht _]]].
  exists row. split; [assumption | apply (normalizeRow_hash h); assumption].
Qed.

Lemma missingOrZero_falsy (v : JSValue) : isMissingOrZero v = true -> truthy v = false.
Proof.
  destruct v as [| |b|n|s|b o a]; simpl; try reflexivity; try discriminate.
  - destruct n; simpl; try discriminate. intros H. rewrite H. reflexivity.
  - intros H. rewrite H. reflexivity.
Qed.

(** C10, as stated, fails: a row with a zero Amount, no Debit column and no
    Date cell has the amount NaN but is not silently excluded; the upload of
    a batch that holds it is answered 500, while the batch without it is
    processed. *)
Lemma C10_counterexample :
  isMissingOrZero (get MoreSamples.zeroAmountNoDate "Amount") = true
  /\ get MoreSamples.zeroAmountNoDate "Debit" = JUndefined
  /\ isNaN (amountOf MoreSamples.zeroAmountNoDate) = true
  /\ upload Sample.utc Sample.emptyTable
       (Some [Sample.coffeeIso; MoreSamples.zeroAmountNoDate])
     = {| response := json 500 "File upload failed: Invalid time value";
          queries := [];
          database := Sample.emptyTable |}
  /\ response (upload Sample.utc Sample.emptyTable (Some [Sample.coffeeIso]))
     = json 200 "1 new transactions processed and saved successfully.".
Proof. repeat split; vm_compute; reflexivity. Qed.

(** C10, amended.  The amount alias is chosen by truthiness, not by
    presence.  For a row whose Amount is absent, empty or the number zero,
    the amount of the record and the amount that enters the hash are
    [parseFloat] of the Debit cell (of the Amount cell when that is truthy);
    so a row with a zero Amount and no Debit column has the amount NaN, and
    when the callback returns a record for it (its date converts, and its
    date, merchant and account have no code unit above 0xFF) it is left out
    of the batch without a trace: the upload goes as it does without it. *)
Theorem C10_amount_alias_by_truthiness (row : Row) :
  isMissingOrZero (get row "Amount") = true ->
  amountOf row = parseFloat (get row "Debit")
  /\ createTransactionHash (hashInput row)
     = createTransactionHash
         [("date", get row "Date"); ("merchant", merchantOf row);
          ("amount", JNum (parseFloat (get row "Debit")));
          ("account", accountOf row)]
  /\ (forall h t, normalizeRow h row = inr t ->
       amount t = parseFloat (get row "Debit")
       /\ btoa (JSON_stringify
                  [("date", get row "Date"); ("merchant", merchant t);
                   ("amount", JNum (parseFloat (get row "Debit")));
                   ("account", account t)]) = inr (hash t))
  /\ (get row "Debit" = JUndefined ->
      isNaN (amountOf row) = true
      /\ forall h db before after t, normalizeRow h row = inr t ->
           normalizedData h (before ++ row :: after) = normalizedData h (before ++ after)
           /\ upload h db (Some (before ++ row :: after))
              = upload h db (Some (before ++ after)))
  /\ (forall row', truthy (get row' "Amount") = true ->
       amountOf row' = parseFloat (get row' "Amount")).
Proof.
  intros Hz. apply missingOrZero_falsy in Hz.
  assert (Ha : amountOf row = parseFloat (get row "Debit")).
  { unfold amountOf, or_else. rewrite Hz. reflexivity. }
  split; [exact Ha|]. split; [unfold hashInput; rewrite Ha; reflexivity|]. split.
  - intros h t Ht. split.
    + rewrite (normalizeRow_amount h row t Ht). exact Ha.
    + pose proof (normalizeRow_record h row t Ht) as [_ [Hx Hrec]].
      rewrite Hrec at 1 2. cbn [merchant account recordOf].
      unfold createTransactionHash, hashInput in Hx. cbn [get String.eqb] in Hx.
      rewrite Ha in Hx. exact Hx.
  - split.
    + intros Hd.
      assert (Hn : isNaN (amountOf row) = true) by (rewrite Ha, Hd; reflexivity).
      split; [exact Hn|]. intros h db before after t Ht.
      pose proof (normalizedData_skips h before after row t Ht Hn) as Hs.
      split; [exact Hs | apply upload_normalizedData; exact Hs].
    + intros row' Ht. unfold amountOf, or_else. rewrite Ht. reflexivity.
Qed.

Lemma C10_amount_alias_by_truthiness_witness :
  isMissingOrZero (get Sample.zeroAmountWithDebit "Amount") = true
  /\ amountOf Sample.zeroAmountWithDebit = Finite false 1999 (-2)
  /\ isMissingOrZero (get Sample.zeroAmount "Amount") = true
  /\ get Sample.zeroAmount "Debit" = JUndefined
  /\ isNaN (amountOf Sample.zeroAmount) = true
  /\ upload Sample.utc Sample.emptyTable
       (Some ([Sample.coffeeIso] ++ Sample.zeroAmount :: [Sample.noAccount]))
     = upload Sample.utc Sample.emptyTable (Some ([Sample.coffeeIso] ++ [Sample.noAccount])).
Proof.
  split; [reflexivity|].
  split.
  { rewrite (proj1 (C10_amount_alias_by_truthiness Sample.zeroAmountWithDebit eq_refl)).
    reflexivity. }
  split; [reflexivity|]. split; [reflexivity|].
  destruct (C10_amount_alias_by_truthiness Sample.zeroAmount eq_refl) as [_ [_ [_ [H _]]]].
  destruct (H eq_refl) as [Hn Hu].
  split; [exact Hn|].
  apply (Hu Sample.utc Sample.emptyTable [Sample.coffeeIso] [Sample.noAccount]
            (recordOf "2024-01-11" Sample.zeroAmount)).
  vm_compute. reflexivity.
Defined.

(* ================================================================== *)
(** ** Further properties *)

Import Endpoints Client Decode.

Open Scope string_scope.
Open Scope Z_scope.
Open Scope list_scope.

(* ------------------------------------------------------------------ *)
(** ** What an upload does to the table *)

Lemma member_app (x : string) (l1 l2 : list string) :
  member x (l1 ++ l2) = member x l1 || member x l2.
Proof. unfold member. apply existsb_app. Qed.

Lemma stored_withRecords (db : Supabase) (records : list Transaction) (t : Transaction) :
  stored (withRecords db records) t = stored db t || member (hash t) (map hash records).
Proof. unfold stored, withRecords. simpl. rewrite map_app. apply member_app. Qed.

Lemma filter_all_false {A : Type} (f : A -> bool) (l : list A) :
  (forall x, In x l -> f x = false) -> filter f l = [].
Proof.
  induction l as [|a l IH]; simpl; intros H; [reflexivity|].
  rewrite (H a (or_introl eq_refl)). apply IH. intros x Hx. apply H. right. exact Hx.
Qed.

(** When the table holds the hash of every record of the batch, the handler
    answers with a count of zero after the select alone. *)
Lemma upload_nothing_new (h : Host) (db : Supabase) (rows : list Row)
    (nd : list Transaction) :
  normalizedData h rows = inr nd -> selectFails db = false ->
  (forall t, In t nd -> stored db t = true) ->
  upload h db (Some rows) =
    {| response := uploadSucceeded 0;
       queries := [SelectHashIn (map hash nd)];
       database := db |}.
Proof.
  intros Hn Hs Hall. unfold upload.
  rewrite (newTransactions_filter h db rows nd Hn Hs), Hn.
  rewrite filter_all_false; [reflexivity|].
  intros t Ht. rewrite (Hall t Ht). reflexivity.
Qed.

(** The outcome of an upload that gets as far as the filter. *)
Lemma upload_filtered (h : Host) (db : Supabase) (rows : list Row)
    (nd : list Transaction) :
  normalizedData h rows = inr nd -> selectFails db = false ->
  let new := filter (fun t => negb (stored db t)) nd in
  upload h db (Some rows) =
    match new with
    | [] => {| response := uploadSucceeded 0;
               queries := [SelectHashIn (map hash nd)];
               database := db |}
    | _ :: _ =>
        if insertFails db then
          {| response := uploadFailed (Error "Database insertion failed.");
             queries := [SelectHashIn (map hash nd); Insert new];
             database := db |}
        else
          {| response := uploadSucceeded (List.length new);
             queries := [SelectHashIn (map hash nd); Insert new];
             database := withRecords db new |}
    end.
Proof.
  intros Hn Hs new. unfold upload.
  rewrite (newTransactions_filter h db rows nd Hn Hs), Hn. fold new.
  destruct new; reflexivity.
Qed.

(** After an upload that went through, the table holds the hash of every
    record of the file. *)
Lemma stored_after_upload (h : Host) (db : Supabase) (rows : list Row)
    (nd : list Transaction) :
  normalizedData h rows = inr nd -> selectFails db = false -> insertFails db = false ->
  selectFails (database (upload h db (Some rows))) = false
  /\ forall t, In t nd -> stored (database (upload h db (Some rows))) t = true.
Proof.
  intros Hn Hs Hi.
  rewrite (upload_filtered h db rows nd Hn Hs). cbv zeta.
  destruct (filter (fun t => negb (stored db t)) nd) as [|t0 new'] eqn:En.
  - split; [exact Hs|]. intros t Ht. simpl.
    destruct (stored db t) eqn:E; [reflexivity|]. exfalso.
    assert (Hin : In t (filter (fun t => negb (stored db t)) nd))
      by (apply filter_In; split; [exact Ht | rewrite E; reflexivity]).
    rewrite En in Hin. contradiction.
  - rewrite Hi. split; [exact Hs|]. intros t Ht. simpl database.
    rewrite stored_withRecords. destruct (stored db t) eqn:E; [reflexivity|].
    rewrite orb_false_l. apply member_In. apply in_map. rewrite <- En.
    apply filter_In. split; [exact Ht | rewrite E; reflexivity].
Qed.

(** X1.  Uploading the same file a second time inserts nothing: after an
    upload that went through, the same rows are all found in the table, the
    handler reports zero new transactions, issues no insert and leaves the
    table as the first upload left it. *)
Theorem X1_second_upload_inserts_nothing (h : Host) (db : Supabase) (rows : list Row)
    (nd : list Transaction) :
  normalizedData h rows = inr nd -> selectFails db = false -> insertFails db = false ->
  upload h (database (upload h db (Some rows))) (Some rows) =
    {| response := json 200 "0 new transactions processed and saved successfully.";
       queries := [SelectHashIn (map hash nd)];
       database := database (upload h db (Some rows)) |}.
Proof.
  intros Hn Hs Hi.
  destruct (stored_after_upload h db rows nd Hn Hs Hi) as [Hs' Hall].
  apply upload_nothing_new; assumption.
Qed.

Lemma X1_second_upload_inserts_nothing_witness :
  upload Sample.utc (database (upload Sample.utc Sample.emptyTable (Some [Sample.coffeeIso])))
         (Some [Sample.coffeeIso]) =
    {| response := json 200 "0 new transactions processed and saved successfully.";
       queries := [SelectHashIn (map hash [recordOf "2024-01-05" Sample.coffeeIso])];
       database := database (upload Sample.utc Sample.emptyTable (Some [Sample.coffeeIso])) |}.
Proof.
  exact (X1_second_upload_inserts_nothing Sample.utc Sample.emptyTable [Sample.coffeeIso]
           [recordOf "2024-01-05" Sample.coffeeIso]
           ltac:(vm_compute; reflexivity) eq_refl eq_refl).
Defined.

(** X2.  An upload only ever appends to the table: whatever the file, the
    rows stored before are kept in place, and the rows added all carry a hash
    the table did not hold and an amount that is a number; rows are added
    only together with the 200 answer that counts them. *)
Theorem X2_upload_only_appends_new_records (h : Host) (db : Supabase)
    (file : option (list Row)) :
  exists added,
    transactions (database (upload h db file)) = transactions db ++ added
    /\ Forall (fun t => stored db t = false /\ isNaN (amount t) = false) added
    /\ (added <> [] ->
        response (upload h db file) = uploadSucceeded (List.length added)
        /\ exists q, queries (upload h db file) = [q; Insert added]).
Proof.
  assert (Hsame : forall o, database o = db -> response o = response o ->
            exists added, transactions (database o) = transactions db ++ added
              /\ Forall (fun t => stored db t = false /\ isNaN (amount t) = false) added
              /\ (added <> [] -> response o = uploadSucceeded (List.length added)
                  /\ exists q, queries o = [q; Insert added])).
  { intros o Ho _. exists []. rewrite Ho, app_nil_r.
    split; [reflexivity|]. split; [constructor|]. intros F. contradiction. }
  destruct file as [rows|]; [|apply Hsame; reflexivity].
  destruct (normalizedData h rows) as [e|nd] eqn:Hn.
  - apply Hsame; unfold upload; rewrite Hn; reflexivity.
  - destruct (selectFails db) eqn:Hs.
    + apply Hsame; unfold upload, newTransactions, selectHashIn;
        rewrite Hn, Hs; reflexivity.
    + rewrite (upload_filtered h db rows nd Hn Hs). cbv zeta.
      assert (Hf : Forall (fun t => stored db t = false /\ isNaN (amount t) = false)
                     (filter (fun t => negb (stored db t)) nd)).
      { apply Forall_forall. intros t Ht. apply filter_In in Ht. destruct Ht as [Ht Hst].
        split; [apply negb_true_iff; exact Hst|].
        destruct (normalizedData_In h rows nd t Hn Ht) as [_ [_ [_ Ha]]]. exact Ha. }
      destruct (filter (fun t => negb (stored db t)) nd) as [|t0 new'] eqn:En.
      * apply Hsame; reflexivity.
      * destruct (insertFails db).
        -- apply Hsame; reflexivity.
        -- exists (t0 :: new'). split; [reflexivity|]. split; [exact Hf|].
           intros _. split; [reflexivity|]. eexists. reflexivity.
Qed.

(** X3.  The insert is issued exactly when something is new.  If the table
    holds the hash of every record of the batch (an empty file included), the
    handler answers 200 with a count of zero after the select alone and the
    table is untouched; if one record's hash is not stored, the select is
    followed by one insert of the new records. *)
Theorem X3_insert_only_when_something_is_new (h : Host) (db : Supabase)
    (rows : list Row) (nd : list Transaction) :
  normalizedData h rows = inr nd -> selectFails db = false ->
  ((forall t, In t nd -> stored db t = true) ->
   upload h db (Some rows) =
     {| response := json 200 "0 new transactions processed and saved successfully.";
        queries := [SelectHashIn (map hash nd)];
        database := db |})
  /\ ((exists t, In t nd /\ stored db t = false) ->
      exists new, new <> []
        /\ newTransactions h db rows = inr new
        /\ queries (upload h db (Some rows)) = [SelectHashIn (map hash nd); Insert new]).
Proof.
  intros Hn Hs. split.
  - intros Hall. apply upload_nothing_new; assumption.
  - intros [t [Ht Hst]].
    exists (filter (fun t => negb (stored db t)) nd).
    assert (Hin : In t (filter (fun t => negb (stored db t)) nd))
      by (apply filter_In; split; [exact Ht | rewrite Hst; reflexivity]).
    split; [intros E; rewrite E in Hin; contradiction|].
    split; [apply newTransactions_filter; assumption|].
    rewrite (upload_filtered h db rows nd Hn Hs). cbv zeta.
    destruct (filter (fun t => negb (stored db t)) nd) as [|t0 new']; [contradiction|].
    destruct (insertFails db); reflexivity.
Qed.

Lemma X3_insert_only_when_something_is_new_witness :
  upload Sample.utc MoreSamples.coffeeStored (Some [Sample.coffeeIso]) =
    {| response := json 200 "0 new transactions processed and saved successfully.";
       queries := [SelectHashIn (map hash [recordOf "2024-01-05" Sample.coffeeIso])];
       database := MoreSamples.coffeeStored |}.
Proof.
  destruct (X3_insert_only_when_something_is_new Sample.utc MoreSamples.coffeeStored
              [Sample.coffeeIso] [recordOf "2024-01-05" Sample.coffeeIso]
              ltac:(vm_compute; reflexivity) eq_refl) as [H _].
  apply H. intros t [<-|[]]. vm_compute. reflexivity.
Defined.

(** X4.  The handler reads only [data] of the select's answer: when the
    select comes back without data, building the set of existing hashes
    throws, the upload is answered 500 and no insert is issued, however valid
    the rows are. *)
Theorem X4_failed_select_fails_upload (h : Host) (db : Supabase) (rows : list Row)
    (nd : list Transaction) :
  normalizedData h rows = inr nd -> selectFails db = true ->
  upload h db (Some rows) =
    {| response :=
         json 500 "File upload failed: Cannot read properties of null (reading 'map')";
       queries := [SelectHashIn (map hash nd)];
       database := db |}
  /\ newCount h db rows = None.
Proof.
  intros Hn Hs. unfold newCount, upload, newTransactions, selectHashIn.
  rewrite Hn, Hs. split; reflexivity.
Qed.

Lemma X4_failed_select_fails_upload_witness :
  newCount Sample.utc MoreSamples.brokenSelect [Sample.coffeeIso] = None.
Proof.
  destruct (X4_failed_select_fails_upload Sample.utc MoreSamples.brokenSelect
              [Sample.coffeeIso] [recordOf "2024-01-05" Sample.coffeeIso]
              ltac:(vm_compute; reflexivity) eq_refl) as [_ H].
  exact H.
Defined.

Lemma NoDup_app_disjoint {A : Type} (l1 l2 : list A) :
  NoDup l1 -> NoDup l2 -> (forall x, In x l1 -> ~ In x l2) -> NoDup (l1 ++ l2).
Proof.
  intros H1 H2 Hd. induction H1 as [|a l1 Ha H1 IH]; simpl; [exact H2|].
  constructor.
  - intros Hin. apply in_app_or in Hin. destruct Hin as [Hin|Hin].
    + contradiction.
    + apply (Hd a (or_introl eq_refl)). exact Hin.
  - apply IH. intros x Hx. apply Hd. right. exact Hx.
Qed.

(** Records picked from records with distinct hashes have distinct hashes. *)
Lemma distinct_hashes_filter (keep : Transaction -> bool) (records : list Transaction) :
  NoDup (map hash records) -> NoDup (map hash (filter keep records)).
Proof.
  induction records as [|t records IH]; simpl; intros H; [constructor|].
  inversion H as [|? ? Ht Hrest]. subst. destruct (keep t); simpl.
  - constructor; [|apply IH; exact Hrest].
    intros Hin. apply Ht. apply in_map_iff in Hin. destruct Hin as [x [Hx Hin]].
    apply filter_In in Hin. destruct Hin as [Hin _].
    rewrite <- Hx. apply in_map. exact Hin.
  - apply IH. exact Hrest.
Qed.

(** X5.  Uploads keep the stored hashes distinct as long as each file does:
    if no two rows of the table share a hash and no two records of the batch
    do, no two rows of the table share a hash after the upload, whether it
    succeeds or fails. *)
Theorem X5_distinct_hashes_are_preserved (h : Host) (db : Supabase) (rows : list Row)
    (nd : list Transaction) :
  normalizedData h rows = inr nd ->
  NoDup (map hash (transactions db)) -> NoDup (map hash nd) ->
  NoDup (map hash (transactions (database (upload h db (Some rows))))).
Proof.
  intros Hn Hdb Hnd.
  destruct (selectFails db) eqn:Hs.
  - unfold upload, newTransactions, selectHashIn. rewrite Hn, Hs. exact Hdb.
  - rewrite (upload_filtered h db rows nd Hn Hs). cbv zeta.
    assert (Hnew : NoDup (map hash (transactions db
                            ++ filter (fun t => negb (stored db t)) nd))).
    { rewrite map_app. apply NoDup_app_disjoint.
      - exact Hdb.
      - apply distinct_hashes_filter. exact Hnd.
      - intros x Hx Hin. apply in_map_iff in Hin. destruct Hin as [t [Ht Hin]].
        apply filter_In in Hin. destruct Hin as [_ Hst].
        apply negb_true_iff in Hst. unfold stored in Hst.
        assert (Hm : member (hash t) (map hash (transactions db)) = true)
          by (apply member_In; rewrite Ht; exact Hx).
        rewrite Hm in Hst. discriminate. }
    destruct (filter (fun t => negb (stored db t)) nd) as [|t0 new'] eqn:En.
    + exact Hdb.
    + destruct (insertFails db); [exact Hdb | exact Hnew].
Qed.

Lemma X5_distinct_hashes_are_preserved_witness :
  let rows := [Sample.coffeeIso; Sample.thousands; Sample.zeroAmountWithDebit] in
  List.length (transactions (database (upload Sample.utc MoreSamples.twoStored (Some rows))))
  = 4%nat
  /\ NoDup (map hash (transactions
                        (database (upload Sample.utc MoreSamples.twoStored (Some rows))))).
Proof.
  cbv zeta. split; [vm_compute; reflexivity|].
  apply (X5_distinct_hashes_are_preserved Sample.utc MoreSamples.twoStored
           [Sample.coffeeIso; Sample.thousands; Sample.zeroAmountWithDebit]
           [recordOf "2024-01-05" Sample.coffeeIso;
            recordOf "2024-01-07" Sample.thousands;
            recordOf "2024-01-10" Sample.zeroAmountWithDebit]).
  - vm_compute. reflexivity.
  - vm_compute. repeat constructor; simpl; intuition discriminate.
  - vm_compute. repeat constructor; simpl; intuition discriminate.
Defined.

(** The exception of the callback tells what is wrong with the row. *)
Lemma normalizeRow_exception (h : Host) (row : Row) (e : JSError) :
  normalizeRow h row = inl e ->
  (e = RangeError "Invalid time value" /\ newDate h (get row "Date") = None)
  \/ (e = InvalidCharacterError "Invalid character"
      /\ newDate h (get row "Date") <> None
      /\ isWide (get row "Date") || isWide (merchantOf row) || isWide (accountOf row)
         = true).
Proof.
  unfold normalizeRow, isoDate, toISOString.
  destruct (newDate h (get row "Date")) as [t|].
  - destruct (civilFromDays (t / msPerDay)) as [[y m] d].
    destruct (isWide (get row "Date") || isWide (merchantOf row) || isWide (accountOf row))
      eqn:E.
    + assert (Hw : isWide (get (hashInput row) "date") || isWide (get (hashInput row) "merchant")
                   || isWide (get (hashInput row) "amount")
                   || isWide (get (hashInput row) "account") = true).
      { cbn [hashInput get String.eqb Ascii.eqb Bool.eqb isWide]. rewrite orb_false_r. exact E. }
      rewrite (createTransactionHash_throws _ Hw). intros H. inversion H.
      right. split; [reflexivity|]. split; [discriminate | reflexivity].
    + rewrite !orb_false_iff in E. destruct E as [[E1 E2] E3].
      destruct (createTransactionHash_returns (hashInput row) E1 E2 eq_refl E3) as [x ->].
      discriminate.
  - intros H. inversion H. left. split; reflexivity.
Qed.

(** X6.  The first row on which the callback throws fails the whole upload,
    whatever the rows after it hold: the answer is 500 with the message of
    that exception, no query is sent and the table is left alone.  The
    exception is "Invalid time value" when the date of the row does not
    convert, as for every row without a Date cell, and "Invalid character"
    when the date converts but the date, the merchant or the account is a
    text with a code unit above 0xFF. *)
Theorem X6_first_exception_fails_the_upload (h : Host) (db : Supabase)
    (before after : list Row) (row : Row) (ts : list Transaction) (e : JSError) :
  mapRows h before = inr ts -> normalizeRow h row = inl e ->
  upload h db (Some (before ++ row :: after)) =
    {| response := json 500 ("File upload failed: " ++ errorMessage e);
       queries := [];
       database := db |}
  /\ newCount h db (before ++ row :: after) = None
  /\ ((e = RangeError "Invalid time value" /\ newDate h (get row "Date") = None)
      \/ (e = InvalidCharacterError "Invalid character"
          /\ newDate h (get row "Date") <> None
          /\ isWide (get row "Date") || isWide (merchantOf row) || isWide (accountOf row)
             = true))
  /\ (forall h' r, get r "Date" = JUndefined ->
       normalizeRow h' r = inl (RangeError "Invalid time value")).
Proof.
  intros Hb He.
  destruct (upload_throws h db _ e (mapRows_first_throw h before after row ts e Hb He))
    as [Hu Hc].
  split; [exact Hu|]. split; [exact Hc|].
  split; [exact (normalizeRow_exception h row e He)|].
  intros h' r Hr. apply isoDate_invalid. rewrite Hr. reflexivity.
Qed.

Lemma X6_first_exception_fails_the_upload_witness :
  upload Sample.utc Sample.emptyTable (Some ([Sample.coffeeIso] ++ MoreSamples.noDate :: [])) =
    {| response := json 500 "File upload failed: Invalid time value";
       queries := [];
       database := Sample.emptyTable |}
  /\ upload Sample.utc Sample.emptyTable
       (Some ([Sample.coffeeIso] ++ MoreSamples.euroMerchant :: [Sample.badDate])) =
     {| response := json 500 "File upload failed: Invalid character";
        queries := [];
        database := Sample.emptyTable |}.
Proof.
  split.
  - destruct (X6_first_exception_fails_the_upload Sample.utc Sample.emptyTable
                [Sample.coffeeIso] [] MoreSamples.noDate
                [recordOf "2024-01-05" Sample.coffeeIso]
                (RangeError "Invalid time value")
                ltac:(vm_compute; reflexivity) ltac:(vm_compute; reflexivity)) as [H _].
    exact H.
  - destruct (X6_first_exception_fails_the_upload Sample.utc Sample.emptyTable
                [Sample.coffeeIso] [Sample.badDate] MoreSamples.euroMerchant
                [recordOf "2024-01-05" Sample.coffeeIso]
                (InvalidCharacterError "Invalid character")
                ltac:(vm_compute; reflexivity) ltac:(vm_compute; reflexivity)) as [H _].
    exact H.
Defined.

Lemma mapRows_amounts (h : Host) (rows : list Row) (ts : list Transaction) :
  mapRows h rows = inr ts -> map amount ts = map amountOf rows.
Proof.
  revert ts. induction rows as [|row rows IH]; simpl; intros ts H.
  - inversion H. reflexivity.
  - destruct (normalizeRow h row) as [e|t] eqn:E; [discriminate|].
    destruct (mapRows h rows) as [e|ts0]; [discriminate|].
    inversion H. subst. simpl. rewrite (IH ts0 eq_refl). f_equal.
    apply (normalizeRow_amount h). exact E.
Qed.

Lemma filter_map_length {A A' B : Type} (f : A -> B) (g : A' -> B) (p : B -> bool)
    (l : list A) :
  forall l' : list A', map f l = map g l' ->
  List.length (filter (fun x => p (f x)) l) = List.length (filter (fun x => p (g x)) l').
Proof.
  induction l as [|a l IH]; intros [|b l'] H; simpl in *; try discriminate;
    [reflexivity|].
  inversion H as [[Hab Hl]]. rewrite Hab. destruct (p (g b)); simpl; rewrite (IH l' Hl);
    reflexivity.
Qed.

Lemma counts_filtered (h : Host) (db : Supabase) (rows : list Row)
    (nd : list Transaction) :
  normalizedData h rows = inr nd -> selectFails db = false ->
  newCount h db rows = Some (List.length (filter (fun t => negb (stored db t)) nd))
  /\ duplicateCount h db rows = Some (List.length (filter (stored db) nd)).
Proof.
  intros Hn Hs. pose proof (newTransactions_filter h db rows nd Hn Hs) as Hf.
  unfold newCount, duplicateCount. rewrite Hn, Hf. split; [reflexivity|].
  f_equal. pose proof (filter_length (stored db) nd) as Hl. lia.
Qed.

(** X7.  Every row of a file that is processed is accounted for once: it is
    new, or a duplicate of a stored row, or left out for an amount that is
    not a number.  The new and the duplicate records together are the rows
    whose amount is a number. *)
Theorem X7_rows_are_new_duplicate_or_dropped (h : Host) (db : Supabase)
    (rows : list Row) (nd : list Transaction) :
  normalizedData h rows = inr nd -> selectFails db = false ->
  exists new dup,
    newCount h db rows = Some new
    /\ duplicateCount h db rows = Some dup
    /\ (new + dup)%nat = List.length (filter (fun row => negb (isNaN (amountOf row))) rows)
    /\ (new + dup
        + List.length (filter (fun row => isNaN (amountOf row)) rows))%nat
       = List.length rows.
Proof.
  intros Hn Hs.
  destruct (counts_filtered h db rows nd Hn Hs) as [Hc Hd].
  exists (List.length (filter (fun t => negb (stored db t)) nd)),
         (List.length (filter (stored db) nd)).
  split; [exact Hc|]. split; [exact Hd|].
  assert (Hl : List.length nd
               = List.length (filter (fun row => negb (isNaN (amountOf row))) rows)).
  { unfold normalizedData in Hn. destruct (mapRows h rows) as [e|ts] eqn:E; [discriminate|].
    inversion Hn. subst. unfold hasAmount.
    apply (filter_map_length amount amountOf (fun a => negb (isNaN a))).
    apply (mapRows_amounts h). exact E. }
  pose proof (filter_length (stored db) nd) as H1.
  pose proof (filter_length (fun row => isNaN (amountOf row)) rows) as H2.
  split; lia.
Qed.

Lemma X7_rows_are_new_duplicate_or_dropped_witness :
  exists new dup,
    newCount Sample.utc MoreSamples.coffeeStored
      [Sample.coffeeIso; Sample.badAmount; Sample.noAccount] = Some new
    /\ duplicateCount Sample.utc MoreSamples.coffeeStored
         [Sample.coffeeIso; Sample.badAmount; Sample.noAccount] = Some dup
    /\ (new + dup)%nat = 2%nat.
Proof.
  destruct (X7_rows_are_new_duplicate_or_dropped Sample.utc MoreSamples.coffeeStored
              [Sample.coffeeIso; Sample.badAmount; Sample.noAccount]
              [recordOf "2024-01-05" Sample.coffeeIso; recordOf "2024-01-09" Sample.noAccount]
              ltac:(vm_compute; reflexivity) eq_refl) as (new & dup & H1 & H2 & H3 & _).
  exists new, dup. split; [exact H1|]. split; [exact H2|]. exact H3.
Defined.

Open Scope string_scope.

Lemma parseFloat_no_number (c : ascii) (s : string) :
  cannotStartNumber c = true -> parseFloatString (String c s) = NaN.
Proof.
  unfold cannotStartNumber. rewrite negb_true_iff, !orb_false_iff.
  intros [[[[[Hw Hd] Hp] Hm] Hdot] Hi].
  unfold parseFloatString. cbn [trimStart]. rewrite Hw, Hm, Hp.
  unfold parseUnsigned. cbn [startsWith spanDigits]. rewrite Ascii.eqb_sym, Hi, Hd.
  cbn [andb]. cbv iota. rewrite Hdot. reflexivity.
Qed.

Open Scope list_scope.

(** X8.  A date cell that is not a text is read as a count of milliseconds
    since 1970: an empty cell (which Papa delivers as [null]) counts as 0, so
    the date of the row is 1970-01-01 instead of failing, and so is that of a
    cell holding a number from 0 to 86399999, such as the compact date
    20240105.  When the merchant and the account of such a row have no code
    unit above 0xFF, the callback returns a record dated 1970-01-01. *)
Theorem X8_untyped_date_cell_is_1970 (h : Host) (row : Row) :
  (get row "Date" = JNull
   \/ exists neg m e, get row "Date" = JNum (Finite neg m e)
                      /\ 0 <= truncate neg m e < msPerDay) ->
  isoDate h row = inr "1970-01-01"%string
  /\ (isWide (merchantOf row) = false -> isWide (accountOf row) = false ->
      normalizeRow h row = inr (recordOf "1970-01-01" row)).
Proof.
  intros H.
  assert (Hd : exists t, newDate h (get row "Date") = Some t /\ 0 <= t < msPerDay).
  { destruct H as [H | (neg & m & e & H & Ht)]; rewrite H.
    - exists 0. split; [reflexivity | unfold msPerDay; lia].
    - exists (truncate neg m e). split; [|exact Ht].
      unfold newDate, timeClip. unfold msPerDay in Ht.
      destruct (Z.leb_spec (Z.abs (truncate neg m e)) 8640000000000000);
        [reflexivity | lia]. }
  destruct Hd as [t [Hd Ht]].
  assert (Hi : isoDate h row = inr "1970-01-01"%string).
  { unfold isoDate, toISOString. rewrite Hd.
    replace (t / msPerDay) with 0 by (symmetry; apply Z.div_small; exact Ht).
    reflexivity. }
  split; [exact Hi|]. intros Wm Wa.
  assert (Wd : isWide (get (hashInput row) "date") = false).
  { cbn [hashInput get String.eqb Ascii.eqb Bool.eqb].
    destruct H as [H | (neg & m & e & H & _)]; rewrite H; reflexivity. }
  destruct (createTransactionHash_returns (hashInput row) Wd Wm eq_refl Wa) as [x Hx].
  exact (normalizeRow_returns h row _ x Hi Hx).
Qed.

Lemma X8_untyped_date_cell_is_1970_witness :
  isoDate Sample.cet MoreSamples.emptyDate = inr "1970-01-01"%string
  /\ normalizeRow Sample.cet MoreSamples.compactDate
     = inr (recordOf "1970-01-01" MoreSamples.compactDate).
Proof.
  split.
  - apply (X8_untyped_date_cell_is_1970 Sample.cet MoreSamples.emptyDate).
    left. reflexivity.
  - apply (X8_untyped_date_cell_is_1970 Sample.cet MoreSamples.compactDate);
      [|reflexivity|reflexivity].
    right. exists false, 20240105%N, 0. split; [reflexivity|].
    unfold truncate, msPerDay. simpl. lia.
Defined.

(** X9.  An Amount text that starts with anything but a digit, a sign, a
    point, white space or the letter I (a dollar or a euro sign, an opening
    parenthesis) is no number.  A row with such an amount for which the
    callback returns a record (its date converts, and its date, merchant and
    account have no code unit above 0xFF) is left out without a trace, even
    when its Debit cell holds a number: the upload goes exactly as it does
    without that row. *)
Theorem X9_amount_with_leading_symbol_is_dropped (h : Host) (db : Supabase)
    (before after : list Row) (row : Row) (t : Transaction) :
  ((exists c s, get row "Amount" = JStr (String c s) /\ cannotStartNumber c = true)
   \/ (exists c s over units, get row "Amount" = JWide (String c s) over units
                              /\ cannotStartNumber c = true)
   \/ (exists over units, get row "Amount" = JWide "" over units
                          /\ isWhiteSpaceUnit (255 + Npos over) = false)) ->
  normalizeRow h row = inr t ->
  amountOf row = NaN
  /\ normalizedData h (before ++ row :: after) = normalizedData h (before ++ after)
  /\ upload h db (Some (before ++ row :: after)) = upload h db (Some (before ++ after)).
Proof.
  intros Ha Hr.
  assert (Hn : amountOf row = NaN).
  { unfold amountOf, or_else.
    destruct Ha as [(c & s & Ha & Hc) | [(c & s & over & units & Ha & Hc)
                                        | (over & units & Ha & Hw)]]; rewrite Ha.
    - cbn [truthy String.eqb negb parseFloat]. apply parseFloat_no_number. exact Hc.
    - cbn [truthy parseFloat]. unfold parseFloatWide. cbn [trimStart].
      assert (Hw : isWhiteSpace c = false).
      { unfold cannotStartNumber in Hc. rewrite negb_true_iff, !orb_false_iff in Hc.
        tauto. }
      rewrite Hw. apply parseFloat_no_number. exact Hc.
    - cbn [truthy parseFloat]. unfold parseFloatWide. cbn [trimStart]. rewrite Hw.
      reflexivity. }
  split; [exact Hn|].
  assert (Hs : normalizedData h (before ++ row :: after) = normalizedData h (before ++ after)).
  { apply (normalizedData_skips h before after row t Hr). rewrite Hn. reflexivity. }
  split; [exact Hs | apply upload_normalizedData; exact Hs].
Qed.

Lemma X9_amount_with_leading_symbol_is_dropped_witness :
  (amountOf MoreSamples.dollarAmount = NaN
   /\ upload Sample.utc Sample.emptyTable
        (Some ([Sample.coffeeIso] ++ MoreSamples.dollarAmount :: []))
      = upload Sample.utc Sample.emptyTable (Some ([Sample.coffeeIso] ++ [])))
  /\ (amountOf MoreSamples.euroAmount = NaN
      /\ upload Sample.utc Sample.emptyTable
           (Some ([Sample.coffeeIso] ++ MoreSamples.euroAmount :: []))
         = upload Sample.utc Sample.emptyTable (Some ([Sample.coffeeIso] ++ []))).
Proof.
  split.
  - destruct (X9_amount_with_leading_symbol_is_dropped Sample.utc Sample.emptyTable
                [Sample.coffeeIso] [] MoreSamples.dollarAmount
                (recordOf "2024-01-12" MoreSamples.dollarAmount)
                ltac:(left; exists "$"%char, "12.50"%string; split; reflexivity)
                ltac:(vm_compute; reflexivity)) as [H1 [_ H3]].
    split; [exact H1 | exact H3].
  - destruct (X9_amount_with_leading_symbol_is_dropped Sample.utc Sample.emptyTable
                [Sample.coffeeIso] [] MoreSamples.euroAmount
                (recordOf "2024-01-14" MoreSamples.euroAmount)
                ltac:(right; right; exists 8109%positive, [49; 50; 46; 53; 48]%N;
                      split; reflexivity)
                ltac:(vm_compute; reflexivity)) as [H1 [_ H3]].
    split; [exact H1 | exact H3].
Defined.

(* ------------------------------------------------------------------ *)
(** ** The hash keeps what it is given *)

Open Scope string_scope.
Open Scope Z_scope.

Lemma base64Char_code (n : N) : base64Char n = String (ascii_of_N (base64Code n)) "".
Proof. reflexivity. Qed.

Lemma base64Index_code (n : N) :
  (n < 64)%N -> base64Index (ascii_of_N (base64Code n)) = n.
Proof.
  intros H. unfold base64Index, code.
  assert (Hb : (base64Code n < 256)%N).
  { unfold base64Code.
    destruct (N.ltb_spec n 26); [lia|]. destruct (N.ltb_spec n 52); [lia|].
    destruct (N.ltb_spec n 62); [lia|]. destruct (N.eqb_spec n 62); lia. }
  rewrite (N_ascii_embedding _ Hb). unfold base64Code.
  destruct (N.ltb_spec n 26); [|destruct (N.ltb_spec n 52);
    [|destruct (N.ltb_spec n 62); [|destruct (N.eqb_spec n 62)]]].
  - replace ((65 <=? 65 + n) && (65 + n <=? 90))%N with true; [lia|].
    symmetry. apply andb_true_iff. split; apply N.leb_le; lia.
  - replace ((65 <=? 71 + n) && (71 + n <=? 90))%N with false
      by (symmetry; apply andb_false_iff; right; apply N.leb_gt; lia).
    replace ((97 <=? 71 + n) && (71 + n <=? 122))%N with true; [lia|].
    symmetry. apply andb_true_iff. split; apply N.leb_le; lia.
  - replace ((65 <=? n - 4) && (n - 4 <=? 90))%N with false
      by (symmetry; apply andb_false_iff; left; apply N.leb_gt; lia).
    replace ((97 <=? n - 4) && (n - 4 <=? 122))%N with false
      by (symmetry; apply andb_false_iff; left; apply N.leb_gt; lia).
    replace ((48 <=? n - 4) && (n - 4 <=? 57))%N with true; [lia|].
    symmetry. apply andb_true_iff. split; apply N.leb_le; lia.
  - subst. reflexivity.
  - assert (n = 63%N) by lia. subst. reflexivity.
Qed.

Lemma base64Index_pad : base64Index "=" = 64%N.
Proof. reflexivity. Qed.

Lemma base64Code_inj (m n : N) :
  (m < 64)%N -> (n < 64)%N -> ascii_of_N (base64Code m) = ascii_of_N (base64Code n) -> m = n.
Proof.
  intros Hm Hn H. apply (f_equal base64Index) in H.
  rewrite !base64Index_code in H; assumption.
Qed.

Lemma base64Code_not_pad (n : N) :
  (n < 64)%N -> ascii_of_N (base64Code n) <> "="%char.
Proof.
  intros Hn H. apply (f_equal base64Index) in H.
  rewrite base64Index_code in H by assumption. rewrite base64Index_pad in H. lia.
Qed.

Lemma code_bound (c : ascii) : (code c < 256)%N.
Proof. unfold code. apply N_ascii_bounded. Qed.

Lemma code_inj (a b : ascii) : code a = code b -> a = b.
Proof.
  unfold code. intros H. rewrite <- (ascii_N_embedding a), <- (ascii_N_embedding b), H.
  reflexivity.
Qed.

Lemma string_ind3 (P : string -> Prop) :
  P "" -> (forall a, P (String a "")) -> (forall a b, P (String a (String b ""))) ->
  (forall a b c r, P r -> P (String a (String b (String c r)))) ->
  forall s, P s.
Proof.
  intros H0 H1 H2 H3.
  fix IH 1. intros [|a [|b [|c r]]].
  - exact H0.
  - apply H1.
  - apply H2.
  - apply H3. apply IH.
Qed.



Ltac split_byte x d :=
  let Hq := fresh in let Hr := fresh in
  let q := fresh "q" in let r := fresh "r" in
  pose proof (N.div_mod x d ltac:(discriminate)) as Hq;
  pose proof (N.mod_lt x d ltac:(discriminate)) as Hr;
  set (q := (x / d)%N) in *; set (r := (x mod d)%N) in *; clearbody q r.

Ltac split_bytes :=
  repeat match goal with
         | |- context [(?x / ?d)%N] => split_byte x d
         | H : context [(?x / ?d)%N] |- _ => split_byte x d
         | |- context [(?x mod ?d)%N] => split_byte x d
         | H : context [(?x mod ?d)%N] |- _ => split_byte x d
         end.

Lemma single_inj (a a' : N) :
  (a < 256 -> a' < 256 ->
   a / 4 = a' / 4 -> a mod 4 * 16 = a' mod 4 * 16 -> a = a')%N.
Proof. intros. split_bytes. lia. Qed.

Lemma pair_inj (a b a' b' : N) :
  (a < 256 -> b < 256 -> a' < 256 -> b' < 256 ->
   a / 4 = a' / 4 ->
   a mod 4 * 16 + b / 16 = a' mod 4 * 16 + b' / 16 ->
   b mod 16 * 4 = b' mod 16 * 4 ->
   a = a' /\ b = b')%N.
Proof. intros. split_bytes. lia. Qed.

Lemma triple_inj (a b c a' b' c' : N) :
  (a < 256 -> b < 256 -> c < 256 -> a' < 256 -> b' < 256 -> c' < 256 ->
   a / 4 = a' / 4 ->
   a mod 4 * 16 + b / 16 = a' mod 4 * 16 + b' / 16 ->
   b mod 16 * 4 + c / 64 = b' mod 16 * 4 + c' / 64 ->
   c mod 64 = c' mod 64 ->
   a = a' /\ b = b' /\ c = c')%N.
Proof. intros. split_bytes. lia. Qed.

Lemma sextets (a b c : N) :
  (a < 256 -> b < 256 -> c < 256 ->
   a / 4 < 64 /\ a mod 4 * 16 < 64 /\ a mod 4 * 16 + b / 16 < 64
   /\ b mod 16 * 4 < 64 /\ b mod 16 * 4 + c / 64 < 64 /\ c mod 64 < 64)%N.
Proof. intros. split_bytes. lia. Qed.

Ltac b64_injections H :=
  repeat match type of H with
         | String _ _ = String _ _ =>
             let H' := fresh "Hc" in injection H as H' H
         end.

Ltac b64_bound := split_bytes; lia.

Ltac b64_pad_contradiction :=
  match goal with
  | H : ascii_of_N (base64Code ?n) = "="%char |- _ =>
      exfalso; revert H; apply base64Code_not_pad; b64_bound
  | H : "="%char = ascii_of_N (base64Code ?n) |- _ =>
      exfalso; symmetry in H; revert H; apply base64Code_not_pad; b64_bound
  end.

Ltac b64_equations :=
  repeat match goal with
         | H : ascii_of_N (base64Code ?x) = ascii_of_N (base64Code ?y) |- _ =>
             apply base64Code_inj in H; [ | b64_bound | b64_bound ]
         end.

(** Base64 loses nothing: two texts with the same encoding are the same. *)
Lemma base64_injective (s1 : string) : forall s2, base64 s1 = base64 s2 -> s1 = s2.
Proof.
  induction s1 as [|a|a b|a b c r IH] using string_ind3;
    intros [|a' [|b' [|c' r']]] H; cbn [base64] in H;
    rewrite ?base64Char_code in H; cbn [append] in H;
    try discriminate; try reflexivity.
  all: pose proof (code_bound a) as Ba; pose proof (code_bound a') as Ba'.
  all: try pose proof (code_bound b) as Bb; try pose proof (code_bound b') as Bb'.
  all: try pose proof (code_bound c) as Bc; try pose proof (code_bound c') as Bc'.
  all: b64_injections H.
  all: try b64_pad_contradiction.
  all: b64_equations.
  - f_equal. apply code_inj. b64_bound.
  - assert (E1 : code a = code a') by b64_bound.
    assert (E2 : code b = code b') by b64_bound.
    apply code_inj in E1, E2. subst. reflexivity.
  - assert (E1 : code a = code a') by b64_bound.
    assert (E2 : code b = code b') by b64_bound.
    assert (E3 : code c = code c') by b64_bound.
    apply code_inj in E1, E2, E3. subst. f_equal. f_equal. f_equal.
    apply IH. assumption.
Qed.

Lemma unquoteBody_quoteChar (c : ascii) (rest : string) :
  unquoteBody (quoteChar c ++ rest) = consFst c (unquoteBody rest).
Proof. destruct c as [[] [] [] [] [] [] [] []]; reflexivity. Qed.

Lemma append_assoc3 (a b c : string) : (a ++ b) ++ c = a ++ (b ++ c).
Proof. induction a as [|x a IH]; simpl; [reflexivity | rewrite IH; reflexivity]. Qed.

Lemma unquoteBody_quoteChars (s rest : string) :
  unquoteBody (quoteChars s ++ dquote ++ rest) = Some (s, rest).
Proof.
  induction s as [|c s IH]; [reflexivity|].
  cbn [quoteChars]. rewrite append_assoc3, unquoteBody_quoteChar, IH. reflexivity.
Qed.

Lemma concat_cons (x : string) (members : list string) :
  String.concat "," (x :: members) ++ "}" = x ++ afterMember members.
Proof.
  destruct members as [|y members]; [reflexivity|].
  cbn [String.concat afterMember]. rewrite !append_assoc3. reflexivity.
Qed.

Lemma append_cancel_l (p a b : string) : p ++ a = p ++ b -> a = b.
Proof.
  induction p as [|c p IH]; simpl; intros H; [exact H|].
  injection H as H. apply IH. exact H.
Qed.

(** The members of an object whose first property holds a string. *)
Lemma serializeMembers_string_first (k s : string) (o : JSObject) (members : list string) :
  serializeMembers ((k, JStr s) :: o) = Some members ->
  exists rest,
    serializeMembers o = Some rest
    /\ members = (quoteJSONString k ++ ":" ++ quoteJSONString s) :: rest.
Proof.
  cbn [serializeMembers serializeValue].
  destruct (serializeMembers o) as [rest|]; [|discriminate].
  intros H. inversion H. exists rest. split; reflexivity.
Qed.

(** The text of such an object. *)
Lemma stringify_string_first (k s : string) (o : JSObject) (text : string) :
  JSON_stringify ((k, JStr s) :: o) = Some text ->
  exists rest,
    serializeMembers o = Some rest
    /\ text = ("{" ++ quoteJSONString k ++ ":" ++ dquote)
              ++ quoteChars s ++ dquote ++ afterMember rest.
Proof.
  unfold JSON_stringify.
  destruct (serializeMembers ((k, JStr s) :: o)) as [members|] eqn:E; [|discriminate].
  destruct (serializeMembers_string_first k s o members E) as [rest [Hr ->]].
  intros H. exists rest. split; [exact Hr|].
  assert (Ht : "{" ++ String.concat "," ((quoteJSONString k ++ ":" ++ quoteJSONString s)
                                          :: rest) ++ "}" = text) by congruence.
  rewrite <- Ht. clear H Ht.
  change ("{" ++ String.concat "," ((quoteJSONString k ++ ":" ++ quoteJSONString s)
                                     :: rest) ++ "}")
    with (String "{" (String.concat "," ((quoteJSONString k ++ ":" ++ quoteJSONString s)
                                     :: rest) ++ "}")).
  rewrite concat_cons. unfold quoteJSONString, dquote.
  repeat first [rewrite append_assoc3 | progress cbn [append]]. reflexivity.
Qed.

(** What follows a member when the next property holds a string. *)
Lemma afterMember_string_first (k s : string) (rest : list string) :
  afterMember ((quoteJSONString k ++ ":" ++ quoteJSONString s) :: rest)
  = ("," ++ quoteJSONString k ++ ":" ++ dquote)
      ++ quoteChars s ++ dquote ++ afterMember rest.
Proof.
  cbn [afterMember].
  change ("," ++ String.concat "," ((quoteJSONString k ++ ":" ++ quoteJSONString s)
                                     :: rest) ++ "}")
    with (String "," (String.concat "," ((quoteJSONString k ++ ":" ++ quoteJSONString s)
                                     :: rest) ++ "}")).
  rewrite concat_cons. unfold quoteJSONString, dquote.
  repeat first [rewrite append_assoc3 | progress cbn [append]]. reflexivity.
Qed.

Lemma quoted_prefix_inj (p s1 s2 t1 t2 : string) :
  p ++ quoteChars s1 ++ dquote ++ t1 = p ++ quoteChars s2 ++ dquote ++ t2 ->
  s1 = s2 /\ t1 = t2.
Proof.
  intros H. apply append_cancel_l in H. apply (f_equal unquoteBody) in H.
  rewrite !unquoteBody_quoteChars in H. injection H as H1 H2. split; assumption.
Qed.

Open Scope list_scope.

(** Two objects with the same hash and dates that are texts have the same
    date text, and the same text after it. *)
Lemma hash_date_text (o1 o2 : JSObject) (x s1 s2 : string) :
  createTransactionHash o1 = inr x -> createTransactionHash o2 = inr x ->
  get o1 "date" = JStr s1 -> get o2 "date" = JStr s2 ->
  s1 = s2
  /\ exists rest1 rest2,
      serializeMembers [("merchant", get o1 "merchant");
                        ("amount", get o1 "amount");
                        ("account", get o1 "account")] = Some rest1
      /\ serializeMembers [("merchant", get o2 "merchant");
                           ("amount", get o2 "amount");
                           ("account", get o2 "account")] = Some rest2
      /\ afterMember rest1 = afterMember rest2.
Proof.
  unfold createTransactionHash, btoa. intros Hx1 Hx2 H1 H2. rewrite H1 in Hx1.
  rewrite H2 in Hx2.
  destruct (JSON_stringify (("date", JStr s1) :: _)) as [text1|] eqn:E1; [|discriminate].
  destruct (JSON_stringify (("date", JStr s2) :: _)) as [text2|] eqn:E2; [|discriminate].
  assert (H : text1 = text2).
  { apply base64_injective. inversion Hx1. inversion Hx2. congruence. }
  destruct (stringify_string_first _ _ _ _ E1) as [rest1 [Hr1 Ht1]].
  destruct (stringify_string_first _ _ _ _ E2) as [rest2 [Hr2 Ht2]].
  rewrite Ht1, Ht2 in H. apply quoted_prefix_inj in H. destruct H as [Hs Ha].
  split; [exact Hs|]. exists rest1, rest2. repeat split; assumption.
Qed.

(** X10.  The identity hash keeps the date and the merchant as they are
    written: when two objects have the same hash and their dates are texts,
    these are the same text, character for character, and so are their
    merchants when both are texts.  Two spellings of one date never share a
    hash. *)
Theorem X10_equal_hashes_have_the_same_date_text (o1 o2 : JSObject) (x s1 s2 : string) :
  createTransactionHash o1 = inr x -> createTransactionHash o2 = inr x ->
  get o1 "date" = JStr s1 -> get o2 "date" = JStr s2 ->
  s1 = s2
  /\ (forall m1 m2, get o1 "merchant" = JStr m1 -> get o2 "merchant" = JStr m2 -> m1 = m2).
Proof.
  intros Hx1 Hx2 H1 H2.
  destruct (hash_date_text o1 o2 x s1 s2 Hx1 Hx2 H1 H2)
    as [Hs (rest1 & rest2 & Hr1 & Hr2 & Ht)].
  split; [exact Hs|].
  intros m1 m2 Hm1 Hm2. rewrite Hm1 in Hr1. rewrite Hm2 in Hr2.
  destruct (serializeMembers_string_first _ _ _ _ Hr1) as [t1 [_ ->]].
  destruct (serializeMembers_string_first _ _ _ _ Hr2) as [t2 [_ ->]].
  rewrite !afterMember_string_first in Ht.
  apply quoted_prefix_inj in Ht. destruct Ht as [Hm _]. exact Hm.
Qed.

Lemma X10_equal_hashes_have_the_same_date_text_witness :
  createTransactionHash Sample.storedCoffee = createTransactionHash Sample.freshCoffee
  /\ ("2024-01-05"%string = "2024-01-05"%string
      /\ forall m1 m2, get Sample.storedCoffee "merchant" = JStr m1 ->
                       get Sample.freshCoffee "merchant" = JStr m2 -> m1 = m2).
Proof.
  split; [vm_compute; reflexivity|].
  exact (X10_equal_hashes_have_the_same_date_text
           Sample.storedCoffee Sample.freshCoffee
           (hashOf Sample.coffeeIso) "2024-01-05" "2024-01-05"
           ltac:(vm_compute; reflexivity) ltac:(vm_compute; reflexivity)
           eq_refl eq_refl).
Defined.

(** X11.  A row is taken for new whenever no stored record was made from a
    row with the very same date text.  For a row whose date is a text, for
    which the callback returns a record and whose amount is a number, on a
    table whose records all come from rows with another date text, the
    record is not found in storage and the select is followed by its insert:
    uploaded under another spelling of its date, a transaction that is
    already stored is inserted again. *)
Theorem X11_another_date_text_is_inserted_again (h : Host) (db : Supabase) (row : Row)
    (t : Transaction) (s : string) :
  normalizeRow h row = inr t -> get row "Date" = JStr s ->
  isNaN (amountOf row) = false -> selectFails db = false ->
  (forall t', In t' (transactions db) ->
     exists h' r s', normalizeRow h' r = inr t' /\ get r "Date" = JStr s' /\ s' <> s) ->
  stored db t = false
  /\ newTransactions h db [row] = inr [t]
  /\ queries (upload h db (Some [row])) = [SelectHashIn [hash t]; Insert [t]].
Proof.
  intros Hr Hs Ha Hsel Hall.
  assert (Hst : stored db t = false).
  { destruct (stored db t) eqn:E; [|reflexivity]. exfalso.
    unfold stored in E. apply member_In in E. apply in_map_iff in E.
    destruct E as [t' [Hh Ht']].
    destruct (Hall t' Ht') as (h' & r & s' & Hr' & Hd' & Hne).
    apply Hne.
    pose proof (normalizeRow_hash h' r t' Hr') as Hx'.
    pose proof (normalizeRow_hash h row t Hr) as Hx. rewrite Hh in Hx'.
    apply (hash_date_text (hashInput r) (hashInput row) (hash t) s' s Hx' Hx);
      assumption. }
  assert (Hnd : normalizedData h [row] = inr [t])
    by (rewrite (normalizedData_single h row t Hr), Ha; reflexivity).
  assert (Hnew : newTransactions h db [row] = inr [t]).
  { rewrite (newTransactions_filter h db [row] _ Hnd Hsel). simpl.
    rewrite Hst. reflexivity. }
  split; [exact Hst|]. split; [exact Hnew|].
  rewrite (upload_filtered h db [row] _ Hnd Hsel). cbv zeta. simpl filter.
  rewrite Hst. simpl. destruct (insertFails db); reflexivity.
Qed.

Lemma X11_another_date_text_is_inserted_again_witness :
  newTransactions Sample.utc MoreSamples.coffeeStored [Sample.coffeeSlash]
  = inr [recordOf "2024-01-05" Sample.coffeeSlash].
Proof.
  assert (Hall : forall t', In t' (transactions MoreSamples.coffeeStored) ->
            exists h' r s', normalizeRow h' r = inr t' /\ get r "Date" = JStr s'
                            /\ s' <> "01/05/2024"%string).
  { intros t' [<-|[]].
    exists Sample.utc, Sample.coffeeIso, "2024-01-05"%string.
    split; [vm_compute; reflexivity|]. split; [reflexivity|].
    intros H. discriminate. }
  destruct (X11_another_date_text_is_inserted_again Sample.utc MoreSamples.coffeeStored
              Sample.coffeeSlash (recordOf "2024-01-05" Sample.coffeeSlash) "01/05/2024"
              ltac:(vm_compute; reflexivity) ltac:(reflexivity)
              ltac:(vm_compute; reflexivity) ltac:(reflexivity) Hall) as [_ [H _]].
  exact H.
Defined.

(* ------------------------------------------------------------------ *)
(** ** Logging in, and the cost centers of the page *)

(** X12.  Logging in succeeds exactly for the configured password, sent as a
    text: with [LOGIN_PASSWORD] unset or empty the password is
    "defaultpassword", and a request without a password, or with one that is
    not a text, is always answered 401. *)
Theorem X12_login_accepts_the_configured_password_only (body : JSObject) :
  (forall v, (v = None \/ v = Some ""%string) ->
     (success (login v body) = true <-> get body "password" = JStr "defaultpassword"))
  /\ (forall s, s <> ""%string ->
       (success (login (Some s) body) = true <-> get body "password" = JStr s))
  /\ (forall v, (forall s, get body "password" <> JStr s) ->
       login v body = {| loginCode := 401; success := false;
                         loginMessage := "Incorrect password." |})
  /\ (forall v, loginCode (login v body) = if success (login v body) then 200 else 401)%nat.
Proof.
  assert (Heq : forall s, success (if strictEquals (get body "password") (JStr s)
                           then {| loginCode := 200; success := true;
                                   loginMessage := "Logged in successfully." |}
                           else {| loginCode := 401; success := false;
                                   loginMessage := "Incorrect password." |}) = true
                          <-> get body "password" = JStr s).
  { intros s. destruct (get body "password") as [| |b|n|p|b o a]; simpl;
      try (split; [discriminate | discriminate]).
    destruct (String.eqb_spec p s) as [->|Hne]; simpl.
    - split; reflexivity.
    - split; [discriminate | intros H; inversion H; contradiction]. }
  split; [|split; [|split]].
  - intros v [->| ->]; apply Heq.
  - intros s Hs. unfold login, env, or_else. simpl truthy.
    destruct (String.eqb_spec s ""); [contradiction|]. simpl. apply Heq.
  - intros v Hno. unfold login.
    destruct (or_else (env v) (JStr "defaultpassword")) as [| |b|n|p|b o a] eqn:E;
      destruct (get body "password") as [| |b'|n'|p'|b' o' a'] eqn:Ep; simpl;
      try reflexivity;
      try (exfalso; apply (Hno p'); reflexivity);
      destruct v as [s|]; unfold or_else, env in E; simpl in E;
      try destruct (negb (String.eqb s "")); discriminate.
  - intros v. unfold login.
    destruct (strictEquals (get body "password") (or_else (env v) (JStr "defaultpassword")));
      reflexivity.
Qed.

Lemma X12_login_accepts_the_configured_password_only_witness :
  success (login (Some ""%string) [("password", JStr "defaultpassword")]) = true
  /\ success (login (Some "s3cret"%string) [("password", JStr "s3cret")]) = true
  /\ success (login (Some "s3cret"%string) [("password", JStr "defaultpassword")]) = false.
Proof.
  destruct (X12_login_accepts_the_configured_password_only
              [("password", JStr "defaultpassword")]) as [H1 _].
  destruct (X12_login_accepts_the_configured_password_only
              [("password", JStr "s3cret")]) as [_ [H2 _]].
  split; [apply (H1 (Some ""%string) (or_intror eq_refl)); reflexivity|].
  split; [apply (H2 "s3cret"%string); [discriminate | reflexivity]|].
  reflexivity.
Defined.

Lemma get_setProp_same (o : JSObject) (k : string) (v : JSValue) :
  get (setProp o k v) k = v.
Proof.
  induction o as [|[k' v'] o IH]; simpl.
  - rewrite String.eqb_refl. reflexivity.
  - destruct (String.eqb k' k) eqn:E; simpl.
    + rewrite String.eqb_refl. reflexivity.
    + rewrite E. exact IH.
Qed.

Lemma get_setProp_other (o : JSObject) (k k' : string) (v : JSValue) :
  k' <> k -> get (setProp o k v) k' = get o k'.
Proof.
  intros Hne. induction o as [|[k0 v0] o IH]; simpl.
  - destruct (String.eqb_spec k k'); [subst; contradiction | reflexivity].
  - destruct (String.eqb_spec k0 k) as [->|Hk]; simpl.
    + destruct (String.eqb_spec k k'); [subst; contradiction | reflexivity].
    + destruct (String.eqb k0 k'); [reflexivity | exact IH].
Qed.

(** X13.  Once the PATCH request has been answered, with whatever status, the
    page shows the change: the list keeps its length and order, every
    transaction with the given id holds the new cost center and the status
    the server derives from it, with its other properties untouched, and
    every other transaction is as it was. *)
Theorem X13_cost_center_change_on_the_page (transactions : list JSObject)
    (transactionId newCostCenter : JSValue) (ok : bool) (i : nat) (t : JSObject) :
  nth_error transactions i = Some t ->
  List.length (handleCostCenterChange transactions transactionId newCostCenter (responded ok))
    = List.length transactions
  /\ exists t',
      nth_error (handleCostCenterChange transactions transactionId newCostCenter
                   (responded ok)) i = Some t'
      /\ (strictEquals (get t "id") transactionId = true ->
          get t' "costCenter" = newCostCenter
          /\ get t' "status" = JStr (patchStatus newCostCenter)
          /\ forall k, k <> "costCenter"%string -> k <> "status"%string ->
                       get t' k = get t k)
      /\ (strictEquals (get t "id") transactionId = false -> t' = t).
Proof.
  intros Ht. unfold handleCostCenterChange, changeCostCenter.
  split; [apply length_map|].
  rewrite nth_error_map, Ht. simpl. eexists. split; [reflexivity|].
  destruct (strictEquals (get t "id") transactionId); split;
    try discriminate; try reflexivity.
  intros _. split; [|split].
  - rewrite get_setProp_other by discriminate. apply get_setProp_same.
  - apply get_setProp_same.
  - intros k Hc Hs. rewrite !get_setProp_other by assumption. reflexivity.
Qed.

Lemma X13_cost_center_change_on_the_page_witness :
  List.length (handleCostCenterChange MoreSamples.pageTransactions
                 (JNum (Finite false 1 0)) (JStr "Travel") (responded false)) = 2%nat.
Proof.
  destruct (X13_cost_center_change_on_the_page MoreSamples.pageTransactions
              (JNum (Finite false 1 0)) (JStr "Travel") false 0
              [("id", JNum (Finite false 1 0)); ("merchant", JStr "Coffee Shop");
               ("costCenter", JNull); ("status", JStr "Review Required")]
              eq_refl) as [H _].
  exact H.
Defined.

Lemma NoDup_app_disjoint_one {A : Type} (l : list A) (x : A) :
  NoDup l -> ~ In x l -> NoDup (l ++ [x]).
Proof.
  intros Hn Hx. induction Hn as [|a l Ha Hn IH]; simpl.
  - constructor; [intros []|constructor].
  - constructor.
    + intros Hin. apply in_app_or in Hin. destruct Hin as [Hin|[Hin|[]]].
      * contradiction.
      * subst. apply Hx. left. reflexivity.
    + apply IH. intros Hin. apply Hx. right. exact Hin.
Qed.

Lemma includes_In (l : list string) (x : string) : includes l x = true <-> In x l.
Proof.
  unfold includes. rewrite existsb_exists. split.
  - intros [y [Hy E]]. apply String.eqb_eq in E. subst. exact Hy.
  - intros H. exists x. split; [exact H | apply String.eqb_refl].
Qed.

(** X14.  Adding a cost center on the page keeps the list free of
    duplicates, and the page sends a request only for a name that is not
    empty and not yet listed, so the server never answers it with "Name is
    required.": it hands exactly the object sent to the insert. *)
Theorem X14_adding_a_cost_center (st : CostCenters) (post : Fetched) :
  NoDup (costCenters st) ->
  NoDup (costCenters (fst (handleAddCostCenter st post)))
  /\ (forall body, snd (handleAddCostCenter st post) = Some body ->
        body = [("name", JStr (newCostCenter st))]
        /\ newCostCenter st <> ""%string
        /\ ~ In (newCostCenter st) (costCenters st)
        /\ forall insert,
             postCostCenter insert body
             = match insert body with
               | insertError m => (serverError m, [body])
               | insertData data => (created (hd_error data), [body])
               end)
  /\ (post = responded true -> snd (handleAddCostCenter st post) <> None ->
      In (newCostCenter st) (costCenters (fst (handleAddCostCenter st post)))
      /\ newCostCenter (fst (handleAddCostCenter st post)) = ""%string).
Proof.
  intros Hnd. unfold handleAddCostCenter.
  destruct (String.eqb_spec (newCostCenter st) "") as [He|He]; simpl.
  - split; [exact Hnd|]. split; [intros body H; discriminate|].
    intros _ H. contradiction.
  - destruct (includes (costCenters st) (newCostCenter st)) eqn:Ei; simpl.
    + split; [exact Hnd|]. split; [intros body H; discriminate|].
      intros _ H. contradiction.
    + assert (Hnot : ~ In (newCostCenter st) (costCenters st)).
      { intros Hin. apply includes_In in Hin. rewrite Hin in Ei. discriminate. }
      assert (Hbody : forall body, Some [("name", JStr (newCostCenter st))] = Some body ->
                body = [("name", JStr (newCostCenter st))]
                /\ newCostCenter st <> ""%string
                /\ ~ In (newCostCenter st) (costCenters st)
                /\ forall insert,
                     postCostCenter insert body
                     = match insert body with
                       | insertError m => (serverError m, [body])
                       | insertData data => (created (hd_error data), [body])
                       end).
      { intros body H. inversion H. subst body. repeat split; try assumption.
        intros insert. unfold postCostCenter. simpl get. simpl truthy.
        destruct (String.eqb_spec (newCostCenter st) ""); [contradiction|].
        simpl. reflexivity. }
      destruct post as [|[|]]; simpl.
      * split; [exact Hnd|]. split; [exact Hbody|]. intros H; discriminate.
      * split.
        { apply NoDup_app_disjoint_one; assumption. }
        split; [exact Hbody|]. intros _ _. split; [|reflexivity].
        apply in_or_app. right. left. reflexivity.
      * split; [exact Hnd|]. split; [exact Hbody|]. intros H; discriminate.
Qed.

Lemma X14_adding_a_cost_center_witness :
  NoDup (costCenters (fst (handleAddCostCenter MoreSamples.pageCostCenters (responded true)))).
Proof.
  destruct (X14_adding_a_cost_center MoreSamples.pageCostCenters (responded true))
    as [H _].
  - simpl. repeat constructor; simpl; intuition discriminate.
  - exact H.
Defined.

(** X15.  Removing a cost center on the page: once the server has accepted
    the DELETE, the name is gone from the list, every other name is kept in
    its place, and a list without duplicates stays so; when the request fails
    or is refused the list is left as it was. *)
Theorem X15_removing_a_cost_center (st : CostCenters) (centerToRemove : string)
    (delete : Fetched) :
  (delete = responded true ->
   ~ In centerToRemove (costCenters (handleRemoveCostCenter st centerToRemove delete))
   /\ (forall c, c <> centerToRemove ->
       (In c (costCenters (handleRemoveCostCenter st centerToRemove delete))
        <-> In c (costCenters st)))
   /\ (NoDup (costCenters st) ->
       NoDup (costCenters (handleRemoveCostCenter st centerToRemove delete))))
  /\ (delete <> responded true -> handleRemoveCostCenter st centerToRemove delete = st).
Proof.
  split.
  - intros ->. simpl. split; [|split].
    + intros Hin. apply filter_In in Hin. destruct Hin as [_ H].
      rewrite String.eqb_refl in H. discriminate.
    + intros c Hc. rewrite filter_In. split; [intros [H _]; exact H|].
      intros H. split; [exact H|].
      destruct (String.eqb_spec c centerToRemove); [contradiction | reflexivity].
    + apply NoDup_filter.
  - intros Hd. destruct delete as [|[|]]; try reflexivity. contradiction.
Qed.

Lemma X15_removing_a_cost_center_witness :
  ~ In "Office"%string
       (costCenters (handleRemoveCostCenter MoreSamples.pageCostCenters "Office"
                       (responded true))).
Proof.
  destruct (X15_removing_a_cost_center MoreSamples.pageCostCenters "Office" (responded true))
    as [H _].
  destruct (H eq_refl) as [H1 _]. exact H1.
Defined.

(* ------------------------------------------------------------------ *)
(** ** Aliases *)

(** X16.  The first alias wins: for a row whose Description and Amount are
    truthy, the Merchant and Debit cells play no part; the record and its
    hash are the same whatever these two cells hold. *)
Theorem X16_first_alias_wins (row : Row) (d : string) (merchantCell debitCell : JSValue) :
  truthy (get row "Description") = true -> truthy (get row "Amount") = true ->
  merchant (recordOf d row) = get row "Description"
  /\ amount (recordOf d row) = parseFloat (get row "Amount")
  /\ recordOf d (("Merchant", merchantCell) :: ("Debit", debitCell) :: row)
     = recordOf d row.
Proof.
  intros Hm Ha.
  assert (H1 : merchantOf row = get row "Description")
    by (unfold merchantOf, or_else; rewrite Hm; reflexivity).
  assert (H2 : amountOf row = parseFloat (get row "Amount"))
    by (unfold amountOf, or_else; rewrite Ha; reflexivity).
  assert (H3 : merchantOf (("Merchant", merchantCell) :: ("Debit", debitCell) :: row)
               = get row "Description")
    by (unfold merchantOf, or_else; simpl get; rewrite Hm; reflexivity).
  assert (H4 : amountOf (("Merchant", merchantCell) :: ("Debit", debitCell) :: row)
               = parseFloat (get row "Amount"))
    by (unfold amountOf, or_else; simpl get; rewrite Ha; reflexivity).
  split; [exact H1|]. split; [exact H2|].
  unfold recordOf, hashOf, hashInput. rewrite H1, H2, H3, H4. reflexivity.
Qed.

Lemma X16_first_alias_wins_witness :
  recordOf "2024-01-05" (("Merchant", JStr "Other") :: ("Debit", JNum (Finite false 9 0))
                           :: Sample.coffeeIso)
  = recordOf "2024-01-05" Sample.coffeeIso.
Proof.
  destruct (X16_first_alias_wins Sample.coffeeIso "2024-01-05" (JStr "Other")
              (JNum (Finite false 9 0)) eq_refl eq_refl) as [_ [_ H]].
  exact H.
Defined.

(* ------------------------------------------------------------------ *)
(** ** Round trips to storage *)

(** X17.  Whatever the file and however many rows it has, an upload sends
    storage at most one select and at most one insert: no query at all (no
    file, or a row on which the callback throws), the select alone, or the
    select followed by one insert of a batch that is not empty. *)
Theorem X17_one_select_one_insert_at_most (h : Host) (db : Supabase)
    (file : option (list Row)) :
  queries (upload h db file) = []
  \/ (exists hashes, queries (upload h db file) = [SelectHashIn hashes])
  \/ (exists hashes new,
        queries (upload h db file) = [SelectHashIn hashes; Insert new]
        /\ new <> []
        /\ Forall (fun t => In (hash t) hashes) new).
Proof.
  destruct file as [rows|]; [|left; reflexivity].
  destruct (normalizedData h rows) as [e|nd] eqn:Hn.
  - left. unfold upload. rewrite Hn. reflexivity.
  - destruct (selectFails db) eqn:Hs.
    + right. left. exists (map hash nd).
      unfold upload, newTransactions, selectHashIn. rewrite Hn, Hs. reflexivity.
    + rewrite (upload_filtered h db rows nd Hn Hs). cbv zeta.
      assert (Hf : Forall (fun t => In (hash t) (map hash nd))
                     (filter (fun t => negb (stored db t)) nd)).
      { apply Forall_forall. intros t Ht. apply filter_In in Ht.
        apply in_map. apply Ht. }
      destruct (filter (fun t => negb (stored db t)) nd) as [|t0 new'].
      * right. left. exists (map hash nd). reflexivity.
      * right. right. exists (map hash nd), (t0 :: new').
        split; [destruct (insertFails db); reflexivity|].
        split; [discriminate | exact Hf].
Qed.

(** X18.  After an upload that went through, storage holds the hash of
    every record of the file, new or not, so that no later upload, of
    whatever file, inserts a record with one of these hashes again. *)
Theorem X18_uploaded_records_are_never_inserted_again (h : Host) (db : Supabase)
    (rows : list Row) (nd : list Transaction) :
  normalizedData h rows = inr nd -> selectFails db = false -> insertFails db = false ->
  (forall t, In t nd -> stored (database (upload h db (Some rows))) t = true)
  /\ forall h' rows' new' t t',
       newTransactions h' (database (upload h db (Some rows))) rows' = inr new' ->
       In t nd -> In t' new' -> hash t' <> hash t.
Proof.
  intros Hn Hs Hi.
  destruct (stored_after_upload h db rows nd Hn Hs Hi) as [Hs' Hall].
  remember (database (upload h db (Some rows))) as after eqn:Hafter. clear Hafter.
  split; [exact Hall|].
  intros h' rows' new' t t' Hnew Ht Ht' Heq.
  destruct (normalizedData h' rows') as [e|nd'] eqn:Hn'.
  - unfold newTransactions in Hnew. rewrite Hn' in Hnew. discriminate.
  - rewrite (newTransactions_filter h' after rows' nd' Hn' Hs') in Hnew.
    injection Hnew as <-. apply filter_In in Ht'. destruct Ht' as [_ Hst].
    apply negb_true_iff in Hst. pose proof (Hall t Ht) as Hst'.
    unfold stored in Hst, Hst'. rewrite Heq, Hst' in Hst. discriminate.
Qed.

Lemma X18_uploaded_records_are_never_inserted_again_witness :
  stored (database (upload Sample.utc Sample.emptyTable
                           (Some [Sample.coffeeIso; Sample.noAccount])))
         (recordOf "2024-01-09" Sample.noAccount) = true.
Proof.
  destruct (X18_uploaded_records_are_never_inserted_again Sample.utc Sample.emptyTable
              [Sample.coffeeIso; Sample.noAccount]
              [recordOf "2024-01-05" Sample.coffeeIso; recordOf "2024-01-09" Sample.noAccount]
              ltac:(vm_compute; reflexivity) eq_refl eq_refl) as [H _].
  apply H. right. left. reflexivity.
Defined.
